(** * Food nutrition analyzer: the analyze-food route and the macros widget

    A shallow embedding of
    - [src/app/api/analyze-food/route.ts] (the [POST] handler with its
      totals-consistency correction), and
    - the [Macros] widget component (payload reconciliation, loading
      detection and view selection),
    over JavaScript values as [JSON.parse] produces them.

    Numbers stay abstract: the arithmetic of the engine ([+] on two numbers,
    [Math.round], the coercions of operands that are not numbers) is an
    interface, [Host], and every theorem is proved for every host.  One
    instance over IEEE binary64 floats is given to run the model. *)

From Stdlib Require Import Floats.
From stdpp Require Import gmap strings list fin_maps.

Set Warnings "-register-all".
Set Default Proof Using "Type".

(** ** JavaScript values *)

Inductive value (num : Type) : Type :=
| VUndefined
| VNull
| VBool (b : bool)
| VNum (n : num)
| VStr (s : string)
| VArr (l : list (value num))
| VObj (o : gmap string (value num)).

Arguments VUndefined {num}.
Arguments VNull {num}.
Arguments VBool {num} b.
Arguments VNum {num} n.
Arguments VStr {num} s.
Arguments VArr {num} l.
Arguments VObj {num} o.

(** The engine's number arithmetic and operand coercions. *)
Class Host := {
  num : Type;
  (** the literal [0] *)
  num_0 : num;
  (** [a + b] on two numbers *)
  num_add : num -> num -> num;
  (** [Math.round(a)] on a number *)
  num_round : num -> num;
  (** [ToBoolean]: false for [0], [-0] and [NaN] *)
  num_truthy : num -> bool;
  (** [a > 0] *)
  num_gt_0 : num -> bool;
  (** [a === 0] *)
  num_is_0 : num -> bool;
  (** [a > 1] *)
  num_gt_one : num -> bool;
  (** [ToNumber] of a value that is not a number *)
  to_number : value num -> num;
  (** [a + b] when an operand is not a number (concatenation or coercion) *)
  plus_coerce : value num -> value num -> value num
}.

(** ** Exceptions *)

(** What a [catch] clause can receive: an [Error] instance with its message,
    or some other thrown value. *)
Inductive thrown :=
| JsError (message : string)
| NonError.

Inductive result (A : Type) : Type :=
| Ok (a : A)
| Throw (e : thrown).

Arguments Ok {A} a.
Arguments Throw {A} e.

#[export] Instance result_ret : MRet result := fun A a => Ok a.
#[export] Instance result_bind : MBind result := fun A B f r =>
  match r with
  | Ok a => f a
  | Throw e => Throw e
  end.

(** [TypeError]s raised by the engine itself. *)
Definition TypeError (message : string) : thrown := JsError message.

(** [array.map(f)] with a callback that may throw: elements in order, the
    first exception ends the traversal. *)
Fixpoint js_map {A B} (f : A -> result B) (l : list A) : result (list B) :=
  match l with
  | [] => Ok []
  | x :: l' => y ← f x; ys ← js_map f l'; Ok (y :: ys)
  end.

(** [array.reduce(f, init)] with a callback that may throw. *)
Fixpoint js_reduce {A B} (f : B -> A -> result B) (l : list A) (acc : B) : result B :=
  match l with
  | [] => Ok acc
  | x :: l' => acc' ← f acc x; js_reduce f l' acc'
  end.

Module Js.
Section Js.
Context {H : Host}.

#[local] Abbreviation value := (value num).

(** [ToBoolean] *)
Definition truthy (v : value) : bool :=
  match v with
  | VUndefined | VNull => false
  | VBool b => b
  | VNum n => num_truthy n
  | VStr s => negb (String.eqb s "")
  | VArr _ | VObj _ => true
  end.

(** [a || b] *)
Definition or (a b : value) : value := if truthy a then a else b.

(** [typeof v === 'object'] *)
Definition typeof_object (v : value) : bool :=
  match v with
  | VNull | VArr _ | VObj _ => true
  | _ => false
  end.

(** [Array.isArray(v)] *)
Definition isArray (v : value) : bool :=
  match v with
  | VArr _ => true
  | _ => false
  end.

(** [v.k] on a value that is neither [null] nor [undefined], for the
    property names of this program ([length] and indices apart): only an
    object carries them; on arrays, strings, numbers and booleans the
    lookup ends in the prototype chain with [undefined]. *)
Definition prop (v : value) (k : string) : value :=
  match v with
  | VObj o => default VUndefined (o !! k)
  | _ => VUndefined
  end.

(** [v.k]: reading a property of [null] or [undefined] throws. *)
Definition get (v : value) (k : string) : result value :=
  match v with
  | VUndefined => Throw (TypeError ("Cannot read properties of undefined (reading '" +:+ k +:+ "')"))
  | VNull => Throw (TypeError ("Cannot read properties of null (reading '" +:+ k +:+ "')"))
  | _ => Ok (prop v k)
  end.

(** [v?.k] *)
Definition opt_get (v : value) (k : string) : value :=
  match v with
  | VUndefined | VNull => VUndefined
  | _ => prop v k
  end.

(** [k in v], for [v] of type object and not [null] *)
Definition has (k : string) (v : value) : bool :=
  match v with
  | VObj o => bool_decide (is_Some (o !! k))
  | _ => false
  end.

(** [v[0]] *)
Definition get_0 (v : value) : result value :=
  match v with
  | VUndefined => Throw (TypeError "Cannot read properties of undefined (reading '0')")
  | VNull => Throw (TypeError "Cannot read properties of null (reading '0')")
  | VArr l => Ok (default VUndefined (head l))
  | VStr s => Ok (match s with String c _ => VStr (String c "") | EmptyString => VUndefined end)
  | VObj o => Ok (default VUndefined (o !! "0"))
  | VNum _ | VBool _ => Ok VUndefined
  end.

(** [v > 0] *)
Definition gt_0 (v : value) : bool :=
  match v with
  | VNum n => num_gt_0 n
  | VUndefined | VNull => false
  | VBool b => b
  | VStr _ | VArr _ | VObj _ => num_gt_0 (to_number v)
  end.

(** [v.length > 0], for [v] neither [null] nor [undefined] *)
Definition length_gt_0 (v : value) : bool :=
  match v with
  | VArr l => bool_decide (0 < length l)
  | VStr s => bool_decide (0 < String.length s)
  | _ => gt_0 (prop v "length")
  end.

(** [v.length === 0], for [v] neither [null] nor [undefined] *)
Definition length_is_0 (v : value) : bool :=
  match v with
  | VArr l => bool_decide (length l = 0)
  | VStr s => bool_decide (String.length s = 0)
  | _ => match prop v "length" with VNum n => num_is_0 n | _ => false end
  end.

(** [a + b] *)
Definition plus (a b : value) : value :=
  match a, b with
  | VNum x, VNum y => VNum (num_add x y)
  | _, _ => plus_coerce a b
  end.

(** [Math.round(v)] *)
Definition Math_round (v : value) : value :=
  match v with
  | VNum x => VNum (num_round x)
  | _ => VNum (num_round (to_number v))
  end.

(** The literal [0]. *)
Definition zero : value := VNum num_0.

End Js.
End Js.

(** ** React children

    What React accepts between the tags of an element: text and numbers,
    and arrays of children; booleans, [null] and [undefined] show nothing.
    A plain object is refused: the render of the whole tree throws an
    [Error] whose message starts as below and goes on to name the object's
    keys. *)

Module React.
Section React.
Context {H : Host}.

#[local] Abbreviation value := (value num).

Fixpoint valid_child (v : value) : bool :=
  match v with
  | VObj _ => false
  | VArr l => forallb valid_child l
  | _ => true
  end.

Definition invalid_child : thrown :=
  JsError "Objects are not valid as a React child".

(** [{v}] between tags *)
Definition child (v : value) : result value :=
  if valid_child v then Ok v else Throw invalid_child.

End React.
End React.

(** ** The analyze-food route: [src/app/api/analyze-food/route.ts]

    The handler that recalculates the totals (the first [POST] of the file,
    lines 3-202); line numbers below are those of the file. *)

Module AnalyzeFood.
Section AnalyzeFood.
Context {H : Host}.

#[local] Abbreviation value := (value num).

(** The four fields of a nutrients object. *)
Inductive field := calories | protein | carbs | fat.

Definition key (f : field) : string :=
  match f with
  | calories => "calories"
  | protein => "protein"
  | carbs => "carbs"
  | fat => "fat"
  end.

(** The accumulator of both reductions, an object literal with exactly the
    four keys. *)
Record Totals := {
  t_calories : value;
  t_protein : value;
  t_carbs : value;
  t_fat : value
}.

Definition component (f : field) (t : Totals) : value :=
  match f with
  | calories => t_calories t
  | protein => t_protein t
  | carbs => t_carbs t
  | fat => t_fat t
  end.

(** [{ calories: 0, protein: 0, carbs: 0, fat: 0 }] *)
Definition initial : Totals :=
  {| t_calories := Js.zero; t_protein := Js.zero; t_carbs := Js.zero; t_fat := Js.zero |}.

(** The accumulator as the object it is. *)
Definition to_object (t : Totals) : value :=
  VObj (<["calories" := t_calories t]> (<["protein" := t_protein t]>
       (<["carbs" := t_carbs t]> (<["fat" := t_fat t]> ∅)))).

(** [ingredient.nutrients?.k || 0] (lines 146-149) *)
Definition ingredient_nutrient (k : string) (ingredient : value) : result value :=
  nutrients ← Js.get ingredient "nutrients";
  Ok (Js.or (Js.opt_get nutrients k) Js.zero).

(** The reducer over the ingredients (lines 145-150). *)
Definition add_ingredient (acc : Totals) (ingredient : value) : result Totals :=
  c ← ingredient_nutrient "calories" ingredient;
  p ← ingredient_nutrient "protein" ingredient;
  b ← ingredient_nutrient "carbs" ingredient;
  f ← ingredient_nutrient "fat" ingredient;
  Ok {| t_calories := Js.plus (t_calories acc) c;
        t_protein := Js.plus (t_protein acc) p;
        t_carbs := Js.plus (t_carbs acc) b;
        t_fat := Js.plus (t_fat acc) f |}.

(** The four [Math.round] assignments (lines 155-158 and 181-184). *)
Definition round_totals (t : Totals) : Totals :=
  {| t_calories := Js.Math_round (t_calories t);
     t_protein := Js.Math_round (t_protein t);
     t_carbs := Js.Math_round (t_carbs t);
     t_fat := Js.Math_round (t_fat t) |}.

(** The callback of [data.loggedMeals.map] (lines 141-167).  Only an object
    can carry [ingredients]; on any other value that is not [null] or
    [undefined] the property is [undefined] and the meal is returned as it
    is, so the spread [{ ...meal, total_nutrients: calculatedTotals }] is
    only ever evaluated on an object: it keeps the meal's own properties
    and sets the one key. *)
Definition correct_meal (meal : value) : result value :=
  ingredients ← Js.get meal "ingredients";
  if Js.truthy ingredients && Js.length_gt_0 ingredients then
    match ingredients with
    | VArr l =>
        calculatedTotals ← js_reduce add_ingredient l initial;
        match meal with
        | VObj o =>
            Ok (VObj (<["total_nutrients" := to_object (round_totals calculatedTotals)]> o))
        | _ => Ok meal
        end
    | _ => Throw (TypeError "meal.ingredients.reduce is not a function")
    end
  else Ok meal.

(** [meal.total_nutrients?.k || 0] (lines 172-175) *)
Definition meal_total (k : string) (meal : value) : result value :=
  total_nutrients ← Js.get meal "total_nutrients";
  Ok (Js.or (Js.opt_get total_nutrients k) Js.zero).

(** The reducer over the corrected meals (lines 171-176). *)
Definition add_meal (acc : Totals) (meal : value) : result Totals :=
  c ← meal_total "calories" meal;
  p ← meal_total "protein" meal;
  b ← meal_total "carbs" meal;
  f ← meal_total "fat" meal;
  Ok {| t_calories := Js.plus (t_calories acc) c;
        t_protein := Js.plus (t_protein acc) p;
        t_carbs := Js.plus (t_carbs acc) b;
        t_fat := Js.plus (t_fat acc) f |}.

(** The totals-consistency correction (lines 141-189), as a function of
    [data.loggedMeals]; the result is the body of the 200 response. *)
Definition correct (loggedMeals : value) : result value :=
  match loggedMeals with
  | VArr meals =>
      correctedMeals ← js_map correct_meal meals;
      correctedDailyTotals ← js_reduce add_meal correctedMeals initial;
      Ok (VObj (<["dailyTotals" := to_object (round_totals correctedDailyTotals)]>
               (<["loggedMeals" := VArr correctedMeals]> ∅)))
  | _ => Throw (TypeError "data.loggedMeals.map is not a function")
  end.

(** The sum the claims speak of, in the reduction's own order:
    [0 + x1 + x2 + ...]. *)
Definition sum (terms : list value) : value :=
  fold_left Js.plus terms Js.zero.

(** *** The handler and its environment *)

(** What [NextResponse.json(body, { status })] is given: [body] is the
    value itself, before it is written as JSON text (where a [NaN] or an
    infinite number is written [null], and [-0] is written [0]). *)
Record Response := {
  status : nat;
  body : value
}.

(** [{ error: message }] *)
Definition error_body (message : value) : value :=
  VObj (<["error" := message]> ∅).

(** [NextResponse.json(body, { status })] for a status that is not a
    literal: the response is created by the Fetch standard's "initialize a
    response", which throws a [RangeError] for a status outside 200-599
    and a [TypeError] for a body with a null-body status (of which 204, 205
    and 304 are in range).  The literals 200, 400 and 500 are accepted. *)
Definition NextResponse_json (body : value) (status : nat) : result Response :=
  if bool_decide (200 <= status <= 599) then
    if bool_decide (status ∈ [204; 205; 304]) then
      Throw (TypeError "Response constructor: Invalid response status code")
    else Ok {| status := status; body := body |}
  else Throw (JsError "init[status] must be in the range of 200 to 599, inclusive.").

(** The answer of the completion API: its HTTP status, and what
    [response.json()] resolves to or rejects with. *)
Record Upstream := {
  up_status : nat;
  up_json : result value
}.

(** [response.ok] *)
Definition up_ok (r : Upstream) : bool :=
  bool_decide (200 <= up_status r <= 299).

(** The one outbound request (lines 95-117): the URL is fixed, the
    [Authorization] header carries the key, and the prompt is this
    handler's fixed template (lines 23-93) around the food description. *)
Record Call := {
  authorization : string;
  described : value
}.

(** Everything the handler reads from outside. *)
Record World := {
  (** [await request.json()] *)
  request_json : result value;
  (** [process.env.OPENAI_API_KEY] *)
  OPENAI_API_KEY : option string;
  (** [await fetch(...)]: a response, or a rejection *)
  fetch : Call -> result Upstream;
  (** [JSON.parse(content)] *)
  JSON_parse : value -> result value
}.

(** Reading the completion (lines 127-131):
    [JSON.parse(responseData.choices[0].message.content)]. *)
Definition completion_data (w : World) (response : Upstream) : result value :=
  responseData ← up_json response;
  choices ← Js.get responseData "choices";
  choice ← Js.get_0 choices;
  message ← Js.get choice "message";
  content ← Js.get message "content";
  JSON_parse w content.

(** The statements after the [fetch] (lines 119-189). *)
Definition after_fetch (w : World) (response : Upstream) : result Response :=
  if negb (up_ok response) then
    errorData ← up_json response;
    error ← Js.get errorData "error";
    NextResponse_json
      (error_body (Js.or (Js.opt_get error "message") (VStr "Failed to process food data")))
      (up_status response)
  else
    data ← completion_data w response;
    dailyTotals ← Js.get data "dailyTotals";
    loggedMeals ← Js.get data "loggedMeals";
    if negb (Js.truthy dailyTotals) || negb (Js.truthy loggedMeals) then
      Ok {| status := 500; body := error_body (VStr "Invalid response format from AI") |}
    else
      corrected ← correct loggedMeals;
      Ok {| status := 200; body := corrected |}.

(** The body of the [try] block (lines 5-189), with the outbound calls it
    made. *)
Definition try_block (w : World) : result Response * list Call :=
  match request_json w with
  | Throw e => (Throw e, [])
  | Ok requestBody =>
      match Js.get requestBody "foodDescription" with
      | Throw e => (Throw e, [])
      | Ok foodDescription =>
          if negb (Js.truthy foodDescription) then
            (Ok {| status := 400; body := error_body (VStr "Food description is required") |}, [])
          else
            match OPENAI_API_KEY w with
            | None | Some "" =>
                (Ok {| status := 500; body := error_body (VStr "OpenAI API key not configured") |}, [])
            | Some apiKey =>
                let call := {| authorization := "Bearer " +:+ apiKey;
                               described := foodDescription |} in
                (response ← fetch w call; after_fetch w response, [call])
            end
      end
  end.

(** The [catch] clause (lines 190-200). *)
Definition catch (e : thrown) : Response :=
  {| status := 500;
     body := error_body (VStr (match e with
                               | JsError message => message
                               | NonError => "Failed to analyze food. Please try again."
                               end)) |}.

(** [POST]: the response, and the outbound calls made on the way. *)
Definition POST (w : World) : Response * list Call :=
  match try_block w with
  | (Ok r, calls) => (r, calls)
  | (Throw e, calls) => (catch e, calls)
  end.

End AnalyzeFood.
End AnalyzeFood.

(** ** The meal card: the [MealCard] component

    The card of the web page and of the later copy of the widget (lines
    427-563 of the widget's file: the totals pass through [Math.round]);
    styling apart, what it shows.  The card of the first copy (lines
    163-270) shows the totals as they are and is not modelled. *)

Module MealCard.
Section MealCard.
Context {H : Host}.
(** [a > 1] on a number *)
Context (num_gt_1 : num -> bool).
Import AnalyzeFood.

#[local] Abbreviation value := (value num).

(** [v > 1] *)
Definition gt_1 (v : value) : bool :=
  match v with
  | VNum n => num_gt_1 n
  | VUndefined | VNull | VBool _ => false
  | VStr _ | VArr _ | VObj _ => num_gt_1 (to_number v)
  end.

(** [v.length > 1] *)
Definition length_gt_1 (v : value) : result bool :=
  match v with
  | VUndefined => Throw (TypeError "Cannot read properties of undefined (reading 'length')")
  | VNull => Throw (TypeError "Cannot read properties of null (reading 'length')")
  | VArr l => Ok (bool_decide (1 < length l))
  | VStr s => Ok (bool_decide (1 < String.length s))
  | _ => Ok (gt_1 (Js.prop v "length"))
  end.

(** [v && <element showing v>]: the element when [v] is truthy, and
    otherwise [v] itself. *)
Inductive slot :=
| Shown (v : value)
| Hidden (falsy : value).

Definition and_shown (v : value) : slot :=
  if Js.truthy v then Shown v else Hidden v.

(** The four [Math.round(x.calories)], ... of a nutrients object. *)
Definition rounded (nutrients : value) : result Totals :=
  c ← Js.get nutrients "calories";
  p ← Js.get nutrients "protein";
  b ← Js.get nutrients "carbs";
  f ← Js.get nutrients "fat";
  Ok {| t_calories := Js.Math_round c; t_protein := Js.Math_round p;
        t_carbs := Js.Math_round b; t_fat := Js.Math_round f |}.

(** One ingredient of the breakdown. *)
Record Row := {
  r_name : value;
  r_serving : slot;
  r_nutrients : Totals
}.

Definition row (ingredient : value) : result Row :=
  name ← Js.get ingredient "name";
  serving_info ← Js.get ingredient "serving_info";
  nutrients ← Js.get ingredient "nutrients";
  values ← rounded nutrients;
  Ok {| r_name := name; r_serving := and_shown serving_info; r_nutrients := values |}.

(** What the card shows. *)
Record Card := {
  c_last : bool;
  c_name : value;
  c_size : slot;
  c_toggle : bool;
  c_totals : Totals;
  c_breakdown : option (list Row)
}.

(** What the component's function returns under a given [showBreakdown]. *)
Definition element (showBreakdown isLast : bool) (meal : value) : result Card :=
  ingredients ← Js.get meal "ingredients";
  hasMultipleIngredients ← length_gt_1 ingredients;
  meal_name ← Js.get meal "meal_name";
  meal_size ← Js.get meal "meal_size";
  total_nutrients ← Js.get meal "total_nutrients";
  totals ← rounded total_nutrients;
  breakdown ←
    (if showBreakdown && hasMultipleIngredients then
       match ingredients with
       | VArr l => rows ← js_map row l; Ok (Some rows)
       | _ => Throw (TypeError "meal.ingredients.map is not a function")
       end
     else Ok None);
  Ok {| c_last := isLast; c_name := meal_name; c_size := and_shown meal_size;
        c_toggle := hasMultipleIngredients; c_totals := totals;
        c_breakdown := breakdown |}.

(** The values of the meal the element has as children, in the order of
    the document: [{meal.meal_name}], [{meal.meal_size}] (itself when it is
    falsy, inside its paragraph otherwise) and the [{ingredient.name}] of
    the breakdown.  The other children are the numbers [Math.round] returns,
    the text of a template literal, booleans and elements. *)
Definition children (card : Card) : list value :=
  c_name card
  :: match c_size card with Shown v => v | Hidden falsy => falsy end
  :: match c_breakdown card with
     | Some rows => map r_name rows
     | None => []
     end.

(** The component under a given [showBreakdown], rendered by React: the
    function runs to its end, then its children are checked. *)
Definition MealCard (showBreakdown isLast : bool) (meal : value) : result Card :=
  card ← element showBreakdown isLast meal;
  if forallb React.valid_child (children card) then Ok card
  else Throw React.invalid_child.

(** The button: [setShowBreakdown(!showBreakdown)]. *)
Definition toggle (showBreakdown : bool) : bool := negb showBreakdown.

(** A list of meals as the widget (lines 408-415) and the web page (lines
    167-177 of its file) lay it out: one card a meal, each with its
    breakdown closed ([useState(false)]), [isLast] being
    [mealIndex === array.length - 1].  The first card that throws ends the
    render. *)
Fixpoint cards (meals : list value) : result (list Card) :=
  match meals with
  | [] => Ok []
  | meal :: rest =>
      card ← MealCard false (match rest with [] => true | _ => false end) meal;
      others ← cards rest;
      Ok (card :: others)
  end.

End MealCard.
End MealCard.

(** ** The macros widget: the [Macros] component

    Both copies of the component (lines 46-157 and 304-420 of their file)
    reconcile, detect loading and select the view in the same way; line
    numbers below are those of the first.  The cards are those of the later
    copy (lines 408-415), see [MealCard]. *)

Module Macros.
Section Macros.
Context {H : Host}.

#[local] Abbreviation value := (value num).

(** The reconciliation of the tool output into meal data (lines 57-69);
    [null] when no rule applies. *)
Definition mealData (toolOutput : value) : value :=
  if Js.truthy (Js.opt_get (Js.opt_get toolOutput "result") "structuredContent") then
    Js.prop (Js.prop toolOutput "result") "structuredContent"
  else if Js.truthy (Js.opt_get toolOutput "structuredContent") then
    Js.prop toolOutput "structuredContent"
  else if Js.truthy (Js.opt_get toolOutput "result") then
    Js.prop toolOutput "result"
  else if Js.truthy toolOutput && Js.typeof_object toolOutput then
    if Js.has "loggedMeals" toolOutput || Js.has "dailyTotals" toolOutput then
      toolOutput
    else VNull
  else VNull.

(** [mealData?.error || toolOutput?.error] (line 71) *)
Definition error (toolOutput : value) : value :=
  Js.or (Js.opt_get (mealData toolOutput) "error") (Js.opt_get toolOutput "error").

(** [mealData?.loggedMeals || []] (line 72) *)
Definition meals (toolOutput : value) : value :=
  Js.or (Js.opt_get (mealData toolOutput) "loggedMeals") (VArr []).

(** [hasFoodDescription] (line 86), for an object [toolOutput] *)
Definition hasFoodDescription (toolOutput : value) : bool :=
  Js.has "foodDescription" toolOutput.

(** [hasMeals] (line 87), for an object [toolOutput] *)
Definition hasMeals (toolOutput : value) : bool :=
  Js.has "loggedMeals" toolOutput
  && Js.isArray (Js.prop toolOutput "loggedMeals")
  && Js.length_gt_0 (Js.prop toolOutput "loggedMeals").

(** The effect (lines 74-96): the value it gives [isLoading]. *)
Definition effect (toolOutput : value) : bool :=
  if Js.length_gt_0 (meals toolOutput) then false
  else
    match toolOutput with
    | VNull => true
    | _ =>
        if Js.truthy toolOutput && Js.typeof_object toolOutput then
          if hasFoodDescription toolOutput && negb (hasMeals toolOutput) then true
          else false
        else false
    end.

(** What is on screen after a render: one of the four views, or nothing
    when the render throws. *)
Inductive view :=
| ErrorPanel (message : value)
| LoadingView
| NoMealData
| MealCards (cards : list MealCard.Card)
| RenderError (e : thrown).

(** The render (lines 98-156) under a given [isLoading]: the error panel
    has [{error}] as a child. *)
Definition render (isLoading : bool) (toolOutput : value) : view :=
  if Js.truthy (error toolOutput) then
    match React.child (error toolOutput) with
    | Ok message => ErrorPanel message
    | Throw e => RenderError e
    end
  else if isLoading then LoadingView
  else if Js.length_is_0 (meals toolOutput) then NoMealData
  else
    match meals toolOutput with
    | VArr l =>
        match MealCard.cards num_gt_one l with
        | Ok shown => MealCards shown
        | Throw e => RenderError e
        end
    | _ => RenderError (TypeError "meals.map is not a function")
    end.

(** [useState(true)] *)
Definition initial_isLoading : bool := true.

(** The view on screen once the effect has run and the component has
    rendered again. *)
Definition settled (toolOutput : value) : view :=
  render (effect toolOutput) toolOutput.

End Macros.
End Macros.

(** ** A host to run the model: IEEE binary64 *)

Module IEEE.

(** [2^52]: from here on every float is an integer. *)
Definition two52 : float := 4503599627370496%float.

(** [Math.round]: the nearest integer, a tie going towards [+∞]; [NaN],
    the infinities and both zeros are returned as they are, and the sign of
    a negative argument that rounds to zero is kept. *)
Definition round (x : float) : float :=
  if PrimFloat.is_nan x || PrimFloat.is_infinity x || PrimFloat.eqb x 0 then x
  else
    let a := PrimFloat.abs x in
    if PrimFloat.leb two52 a then x
    else
      let r := ((a + two52) - two52)%float in
      let fl := if PrimFloat.ltb a r then (r - 1)%float else r in
      if PrimFloat.ltb 0 x then
        if PrimFloat.leb (fl + 0.5)%float a then (fl + 1)%float else fl
      else
        if PrimFloat.ltb (fl + 0.5)%float a then (- (fl + 1))%float else (- fl)%float.

(** [ToNumber] on [undefined], [null] and booleans.  Strings, arrays and
    objects convert through the engine's number syntax, which is not
    transcribed here: they are answered with [NaN], and nothing below
    evaluates the model on such an operand. *)
Definition ToNumber (v : value float) : float :=
  match v with
  | VNum x => x
  | VNull | VBool false => 0%float
  | VBool true => 1%float
  | _ => PrimFloat.nan
  end.

Definition is_primitive_number (v : value float) : bool :=
  match v with
  | VUndefined | VNull | VBool _ | VNum _ => true
  | _ => false
  end.

(** [a + b] with an operand that is not a number: numeric addition when
    neither is a string, an array or an object, concatenation of two
    strings; the remaining cases format a number as text and are answered
    with [NaN] (see [ToNumber]). *)
Definition coerced_plus (a b : value float) : value float :=
  if is_primitive_number a && is_primitive_number b then
    VNum (ToNumber a + ToNumber b)%float
  else
    match a, b with
    | VStr s, VStr t => VStr (s +:+ t)
    | _, _ => VNum PrimFloat.nan
    end.

#[export] Instance host : Host := {|
  num := float;
  num_0 := 0%float;
  num_add := PrimFloat.add;
  num_round := round;
  num_truthy := fun x => negb (PrimFloat.is_nan x || PrimFloat.eqb x 0);
  num_gt_0 := fun x => PrimFloat.ltb 0 x;
  num_is_0 := fun x => PrimFloat.eqb x 0;
  num_gt_one := fun x => PrimFloat.ltb 1 x;
  to_number := ToNumber;
  plus_coerce := coerced_plus
|}.

End IEEE.

(** ** The specification's vocabulary *)

Module Spec.
Section Spec.
Context {H : Host}.

#[local] Abbreviation value := (value num).

(** *** Reconciliation as an ordered list of rules *)

(** A candidate counts when it is present, that is truthy, as every object
    is. *)
Definition present (candidate : value) : option value :=
  if Js.truthy candidate then Some candidate else None.

(** "a nested result.structuredContent object" *)
Definition nested_structured_content (payload : value) : option value :=
  present (Js.opt_get (Js.opt_get payload "result") "structuredContent").

(** "a top-level structuredContent object" *)
Definition top_level_structured_content (payload : value) : option value :=
  present (Js.opt_get payload "structuredContent").

(** "a top-level result object" *)
Definition top_level_result (payload : value) : option value :=
  present (Js.opt_get payload "result").

(** "the raw value itself if it carries recognizable meal-data keys
    directly" *)
Definition raw_meal_data (payload : value) : option value :=
  match payload with
  | VObj o =>
      if bool_decide (is_Some (o !! "loggedMeals") \/ is_Some (o !! "dailyTotals"))
      then Some payload else None
  | _ => None
  end.

Definition extraction_rules : list (value -> option value) :=
  [nested_structured_content; top_level_structured_content; top_level_result;
   raw_meal_data].

(** "first match wins" *)
Fixpoint first_match (rules : list (value -> option value)) (payload : value)
  : option value :=
  match rules with
  | [] => None
  | rule :: rules' =>
      match rule payload with
      | Some extracted => Some extracted
      | None => first_match rules' payload
      end
  end.

(** *** Shapes of the model's answer *)





(** *** The quantities the totals are sums of

    Read off the objects themselves, by the keys of their maps. *)

(** The entry [k] of the object a value has under [container], if it has
    one. *)
Definition entry (container k : string) (x : value) : option value :=
  match x with
  | VObj o =>
      match o !! container with
      | Some (VObj n) => n !! k
      | _ => None
      end
  | _ => None
  end.

(** A quantity as it is counted in a sum: itself, and the number [0] when it
    is missing or falsy. *)
Definition counted (quantity : option value) : value :=
  match quantity with
  | Some v => if Js.truthy v then v else VNum num_0
  | None => VNum num_0
  end.

(** "that field over all of the meal's ingredients' nutrients": the
    nutrient [k] of one ingredient. *)
Definition nutrient_of (k : string) (ingredient : value) : value :=
  counted (entry "nutrients" k ingredient).

(** "that field over the total_nutrients of all meals": the total [k] of
    one meal. *)
Definition total_of (k : string) (meal : value) : value :=
  counted (entry "total_nutrients" k meal).

(** A 500 response with [{ error: message }], [message] a string. *)
Definition internal_error (r : AnalyzeFood.Response) : Prop :=
  AnalyzeFood.status r = 500
  /\ exists message, AnalyzeFood.body r = AnalyzeFood.error_body (VStr message).

(** The environment has no API key. *)
Definition key_unset (w : AnalyzeFood.World) : bool :=
  match AnalyzeFood.OPENAI_API_KEY w with
  | None | Some "" => true
  | Some _ => false
  end.

End Spec.
End Spec.

(** ** Sample inputs *)

Module Sample.
Import IEEE.

#[local] Abbreviation value := (value float).

Definition object (properties : list (string * value)) : value :=
  VObj (list_to_map properties).

Definition nutrients (c p b f : float) : value :=
  object [("calories", VNum c); ("protein", VNum p); ("carbs", VNum b); ("fat", VNum f)].

Definition ingredient (name : string) (n : value) : value :=
  object [("name", VStr name); ("brand", VStr "Generic");
          ("serving_info", VStr "1 serving"); ("nutrients", n)].

(** An ingredient that reports calories only. *)
Definition coke : value :=
  ingredient "Coke" (object [("calories", VNum 210%float)]).

(** A meal whose reported total disagrees with its ingredients. *)
Definition big_mac_meal : value :=
  object [("meal_name", VStr "Big Mac Meal"); ("meal_size", VStr "Medium");
          ("total_nutrients", nutrients 1000 30 100 40);
          ("ingredients",
           VArr [ingredient "Big Mac" (nutrients 540.5 25.25 40 25);
                 ingredient "Fries" (nutrients 365.25 4 48 17);
                 coke])].

(** Two ingredients of half a calorie each. *)
Definition two_halves : value :=
  object [("meal_name", VStr "Two mints");
          ("ingredients",
           VArr [ingredient "Mint" (nutrients 0.5 0 0.25 0);
                 ingredient "Mint" (nutrients 0.5 0 0.25 0)])].

(** A meal without ingredients. *)
Definition blueberries : value :=
  object [("meal_name", VStr "Blueberries"); ("meal_size", VStr "100g");
          ("total_nutrients", nutrients 57 1 14.5 0); ("ingredients", VArr [])].

(** A meal with neither ingredients nor a total. *)
Definition water : value :=
  object [("meal_name", VStr "Water")].

Definition loggedMeals : value := VArr [big_mac_meal; blueberries; water].

Definition data : value :=
  object [("dailyTotals", nutrients 0 0 0 0); ("loggedMeals", loggedMeals)].

(** The completion API's answer around some text, and its error answer. *)
Definition completion : value :=
  object [("choices",
           VArr [object [("message",
                          object [("role", VStr "assistant");
                                  ("content", VStr "<the completion text>")])]])].


Definition completion_response : AnalyzeFood.Upstream :=
  {| AnalyzeFood.up_status := 200; AnalyzeFood.up_json := Ok completion |}.


Definition request (foodDescription : string) : value :=
  object [("foodDescription", VStr foodDescription)].

(** The world in which everything works: the completion text parses to
    [data]. *)
Definition world : AnalyzeFood.World := {|
  AnalyzeFood.request_json := Ok (request "Big Mac meal, blueberries, water");
  AnalyzeFood.OPENAI_API_KEY := Some "sk-sample";
  AnalyzeFood.fetch := fun _ => Ok completion_response;
  AnalyzeFood.JSON_parse := fun _ => Ok data
|}.

(** The response to the sample request. *)
Definition response : AnalyzeFood.Response := (AnalyzeFood.POST world).1.

(** No key, and an empty description. *)
Definition world_no_key_no_description : AnalyzeFood.World := {|
  AnalyzeFood.request_json := Ok (request "");
  AnalyzeFood.OPENAI_API_KEY := None;
  AnalyzeFood.fetch := AnalyzeFood.fetch world;
  AnalyzeFood.JSON_parse := AnalyzeFood.JSON_parse world
|}.

(** A body without the field. *)
Definition world_no_field : AnalyzeFood.World := {|
  AnalyzeFood.request_json := Ok (object []);
  AnalyzeFood.OPENAI_API_KEY := Some "sk-sample";
  AnalyzeFood.fetch := AnalyzeFood.fetch world;
  AnalyzeFood.JSON_parse := AnalyzeFood.JSON_parse world
|}.

(** No key, with a description. *)
Definition world_no_key : AnalyzeFood.World := {|
  AnalyzeFood.request_json := AnalyzeFood.request_json world;
  AnalyzeFood.OPENAI_API_KEY := None;
  AnalyzeFood.fetch := AnalyzeFood.fetch world;
  AnalyzeFood.JSON_parse := AnalyzeFood.JSON_parse world
|}.



(** The completion text is not JSON. *)
Definition world_not_json : AnalyzeFood.World := {|
  AnalyzeFood.request_json := AnalyzeFood.request_json world;
  AnalyzeFood.OPENAI_API_KEY := Some "sk-sample";
  AnalyzeFood.fetch := AnalyzeFood.fetch world;
  AnalyzeFood.JSON_parse := fun _ => Throw (JsError "Unexpected token S in JSON at position 0")
|}.


(** Tool outputs. *)
Definition nested_payload : value :=
  object [("result", object [("structuredContent", data)])].

Definition structured_payload : value :=
  object [("structuredContent", data)].

(** What the tool of [src/app/mcp/route.ts] returns as structured content. *)
Definition pending_payload : value :=
  object [("foodDescription", VStr "pizza and burger");
          ("dailyTotals", nutrients 0 0 0 0); ("loggedMeals", VArr [])].


End Sample.

(** ** When the correction goes through *)

Module Accept.
Section Accept.
Context {H : Host}.

#[local] Abbreviation value := (value num).




End Accept.
End Accept.

(** ** The base URL and the Next configuration

    [baseUrl.ts] and [next.config.ts]; the environment variables are
    strings or unset. *)

Module Config.

Record Env := {
  NODE_ENV : option string;
  VERCEL_ENV : option string;
  VERCEL_PROJECT_PRODUCTION_URL : option string;
  VERCEL_BRANCH_URL : option string;
  VERCEL_URL : option string
}.

(** [ToBoolean] of an environment variable: set and not empty. *)
Definition set (x : option string) : bool :=
  match x with
  | None | Some "" => false
  | Some _ => true
  end.

(** [a || b] on environment variables *)
Definition or_else (a b : option string) : option string :=
  if set a then a else b.

(** [x == s] and [x === s] for a string literal [s]: an unset variable
    equals no string. *)
Definition equals (x : option string) (s : string) : bool :=
  match x with
  | Some x' => String.eqb x' s
  | None => false
  end.

(** [baseURL]; [None] is [undefined]. *)
Definition baseURL (env : Env) : option string :=
  if equals (NODE_ENV env) "development" then Some "http://localhost:3000"
  else
    let url :=
      if equals (VERCEL_ENV env) "production"
      then VERCEL_PROJECT_PRODUCTION_URL env
      else or_else (VERCEL_BRANCH_URL env) (VERCEL_URL env) in
    match url with
    | None | Some "" => None
    | Some u => Some ("https://" +:+ u)
    end.

(** [nextConfig.assetPrefix], [None] when the key is not set:
    [baseURL && typeof baseURL === "string" && baseURL.startsWith("http")
     ? { assetPrefix: baseURL } : {}]. *)
Definition assetPrefix (baseURL : option string) : option string :=
  match baseURL with
  | None | Some "" => None
  | Some u => if String.prefix "http" u then Some u else None
  end.

(** The URL [getAppsSdkCompatibleHtml(baseURL, "/nmacros")] fetches,
    [`${baseUrl}${path}`]: an [undefined] base is spelled out. *)
Definition widget_html_url (baseURL : option string) : string :=
  match baseURL with
  | Some u => u
  | None => "undefined"
  end +:+ "/nmacros".

End Config.

(** ** The tool of the MCP route

    The [structuredContent] the tool's callback returns for a description:
    in [src/app/mcp/route.ts] (lines 206-218) with zero totals and an empty
    meal list, in the earlier copy of the route (lines 174-184 of its file)
    with both [null]; and the one of its [catch] clause (lines 229-231). *)

Module Tool.
Section Tool.
Context {H : Host}.

#[local] Abbreviation value := (value num).

Definition structuredContent (foodDescription : string) : value :=
  VObj (<["foodDescription" := VStr foodDescription]>
       (<["dailyTotals" :=
            VObj (<["calories" := Js.zero]> (<["protein" := Js.zero]>
                 (<["carbs" := Js.zero]> (<["fat" := Js.zero]> ∅))))]>
       (<["loggedMeals" := VArr []]> ∅))).

Definition structuredContent_earlier (foodDescription : string) : value :=
  VObj (<["foodDescription" := VStr foodDescription]>
       (<["dailyTotals" := VNull]> (<["loggedMeals" := VNull]> ∅))).

(** [{ error: error instanceof Error ? error.message : "Failed to analyze
    food. Please try again." }] *)
Definition structuredContent_caught (e : thrown) : value :=
  VObj (<["error" := VStr (match e with
                           | JsError message => message
                           | NonError => "Failed to analyze food. Please try again."
                           end)]> ∅).

End Tool.
End Tool.

(** ** The web page: the [WebPage] component *)

Module WebPage.
Section WebPage.
Context {H : Host}.

#[local] Abbreviation value := (value num).

Inductive role := user | assistant.

Record Message := {
  id : string;
  role_of : role;
  content : string;
  mealData : option value
}.

Record State := {
  messages : list Message;
  input : string;
  isLoading : bool
}.

(** What [fetch("/api/analyze-food", ...)] resolves to. *)
Record ApiResponse := {
  ok : bool;
  json : result value
}.

(** What the page reads from outside. *)
Record Page := {
  (** [s.trim()] *)
  trim : string -> string;
  (** [Date.now().toString()], when the user's message is made *)
  user_id : string;
  (** [(Date.now() + 1).toString()], when the reply is made *)
  reply_id : string;
  (** the [fetch], given the object it sends as JSON *)
  api : value -> result ApiResponse;
  (** [ToString] of a value that is not a string *)
  String_of : value -> string
}.

(** [new Error(v).message] *)
Definition Error_message (p : Page) (v : value) : string :=
  match v with
  | VStr s => s
  | _ => String_of p v
  end.

(** The [try] block of [handleSubmit] (lines 70-92): the reply, or what is
    thrown. *)
Definition attempt (p : Page) (description : string) : result Message :=
  response ← api p (VObj (<["foodDescription" := VStr description]> ∅));
  data ← json response;
  if negb (ok response) then
    error ← Js.get data "error";
    Throw (JsError (Error_message p (Js.or error (VStr "Failed to analyze food"))))
  else
    Ok {| id := reply_id p; role_of := assistant;
          content := "Analyzed: " +:+ description; mealData := Some data |}.

(** The [catch] clause (lines 93-102). *)
Definition errorMessage (p : Page) (e : thrown) : Message :=
  {| id := reply_id p; role_of := assistant;
     content := "Error: " +:+ match e with
                              | JsError message => message
                              | NonError => "Failed to analyze food. Please try again."
                              end;
     mealData := Some (VObj (<["error" := VStr match e with
                                               | JsError message => message
                                               | NonError => "Failed to analyze food"
                                               end]> ∅)) |}.

(** The state while the request is in flight (lines 60-68). *)
Definition submitting (p : Page) (s : State) : State :=
  {| messages := messages s ++ [{| id := user_id p; role_of := user;
                                   content := trim p (input s); mealData := None |}];
     input := "";
     isLoading := true |}.

(** [handleSubmit], run to its end: the state it leaves, and the requests
    it sent. *)
Definition handleSubmit (p : Page) (s : State) : State * list value :=
  if String.eqb (trim p (input s)) "" || isLoading s then (s, [])
  else
    let description := trim p (input s) in
    let reply := match attempt p description with
                 | Ok assistantMessage => assistantMessage
                 | Throw e => errorMessage p e
                 end in
    ({| messages := messages (submitting p s) ++ [reply];
        input := input (submitting p s);
        isLoading := false |},
     [VObj (<["foodDescription" := VStr description]> ∅)]).

(** What a message is shown as (lines 145-185); [Broken] when its render
    throws. *)
Inductive bubble :=
| UserText (text : string)
| ErrorBox (error : value)
| CardList (cards : list MealCard.Card)
| ReplyText (text : string)
| Broken (e : thrown).

Definition show (m : Message) : bubble :=
  match role_of m with
  | user => UserText (content m)
  | assistant =>
      let data := default VUndefined (mealData m) in
      if Js.truthy (Js.opt_get data "error") then
        match React.child (Js.prop data "error") with
        | Ok error => ErrorBox error
        | Throw e => Broken e
        end
      else if Js.truthy (Js.opt_get data "loggedMeals") then
        match Js.prop data "loggedMeals" with
        | VArr l =>
            match MealCard.cards num_gt_one l with
            | Ok shown => CardList shown
            | Throw e => Broken e
            end
        | _ => Broken (TypeError "message.mealData.loggedMeals.map is not a function")
        end
      else ReplyText (content m)
  end.

(** The page's request answered by the route's handler: the request body
    is what the handler's [request.json()] resolves to, the status decides
    [response.ok], and [wire] is the passage of the body through JSON
    text. *)
Definition served (w : AnalyzeFood.World) (wire : value -> value)
    (request : value) : result ApiResponse :=
  let r := (AnalyzeFood.POST
              {| AnalyzeFood.request_json := Ok request;
                 AnalyzeFood.OPENAI_API_KEY := AnalyzeFood.OPENAI_API_KEY w;
                 AnalyzeFood.fetch := AnalyzeFood.fetch w;
                 AnalyzeFood.JSON_parse := AnalyzeFood.JSON_parse w |}).1 in
  Ok {| ok := bool_decide (200 <= AnalyzeFood.status r <= 299);
        json := Ok (wire (AnalyzeFood.body r)) |}.

End WebPage.
End WebPage.

(** ** Further sample inputs *)

Module Demo.
Import IEEE.

#[local] Abbreviation value := (value float).

(** The request body cannot be read. *)
Definition world_bad_request : AnalyzeFood.World := {|
  AnalyzeFood.request_json := Throw (JsError "Unexpected end of JSON input");
  AnalyzeFood.OPENAI_API_KEY := Some "sk-sample";
  AnalyzeFood.fetch := AnalyzeFood.fetch Sample.world;
  AnalyzeFood.JSON_parse := AnalyzeFood.JSON_parse Sample.world
|}.

(** The request body is [null]. *)
Definition world_null_request : AnalyzeFood.World := {|
  AnalyzeFood.request_json := Ok VNull;
  AnalyzeFood.OPENAI_API_KEY := Some "sk-sample";
  AnalyzeFood.fetch := AnalyzeFood.fetch Sample.world;
  AnalyzeFood.JSON_parse := AnalyzeFood.JSON_parse Sample.world
|}.

(** The model's answer with other daily totals. *)
Definition data' : value :=
  Sample.object [("dailyTotals", Sample.nutrients 1 2 3 4);
                 ("loggedMeals", Sample.loggedMeals)].

Definition world' : AnalyzeFood.World := {|
  AnalyzeFood.request_json := AnalyzeFood.request_json Sample.world;
  AnalyzeFood.OPENAI_API_KEY := Some "sk-sample";
  AnalyzeFood.fetch := AnalyzeFood.fetch Sample.world;
  AnalyzeFood.JSON_parse := fun _ => Ok data'
|}.

(** The properties of the sample meal other than its reported total. *)
Definition big_mac_rest : gmap string value :=
  list_to_map
    [("meal_name", VStr "Big Mac Meal"); ("meal_size", VStr "Medium");
     ("ingredients",
      VArr [Sample.ingredient "Big Mac" (Sample.nutrients 540.5 25.25 40 25);
            Sample.ingredient "Fries" (Sample.nutrients 365.25 4 48 17);
            Sample.coke])].

(** A preview deployment, and an environment with no deployment URL. *)
Definition preview : Config.Env := {|
  Config.NODE_ENV := Some "production";
  Config.VERCEL_ENV := Some "preview";
  Config.VERCEL_PROJECT_PRODUCTION_URL := Some "macros.example.com";
  Config.VERCEL_BRANCH_URL := Some "macros-git-main.example.com";
  Config.VERCEL_URL := Some "macros-abc123.example.com"
|}.

Definition bare : Config.Env := {|
  Config.NODE_ENV := Some "production";
  Config.VERCEL_ENV := None;
  Config.VERCEL_PROJECT_PRODUCTION_URL := None;
  Config.VERCEL_BRANCH_URL := None;
  Config.VERCEL_URL := None
|}.

(** [a > 1] on floats *)
Definition gt_1 (x : float) : bool := PrimFloat.ltb 1 x.

(** The corrected sample meal. *)
Definition corrected_big_mac : value :=
  match AnalyzeFood.correct_meal Sample.big_mac_meal with
  | Ok meal => meal
  | Throw _ => VUndefined
  end.

(** A space, a tab, a line feed or a carriage return. *)
Definition blank (c : Ascii.ascii) : bool :=
  bool_decide (Ascii.nat_of_ascii c ∈ [32; 9; 10; 13]).

Fixpoint trim_start (s : string) : string :=
  match s with
  | String c s' => if blank c then trim_start s' else s
  | EmptyString => EmptyString
  end.

(** [trim] on spaces, tabs and line ends. *)
Definition trim (s : string) : string :=
  String.rev (trim_start (String.rev (trim_start s))).

(** A failure answer with an error. *)
Definition refusal : WebPage.ApiResponse :=
  {| WebPage.ok := false;
     WebPage.json := Ok (Sample.object [("error", VStr "Food description is required")]) |}.

(** A page whose requests are answered with it. *)
Definition refusing_page : WebPage.Page := {|
  WebPage.trim := trim;
  WebPage.user_id := "1700000000000";
  WebPage.reply_id := "1700000000901";
  WebPage.api := fun _ => Ok refusal;
  WebPage.String_of := fun _ => "[object Object]"
|}.

(** A page whose requests go to the handler in the world without a key. *)
Definition keyless_page : WebPage.Page := {|
  WebPage.trim := trim;
  WebPage.user_id := "1700000000000";
  WebPage.reply_id := "1700000000901";
  WebPage.api := WebPage.served Sample.world_no_key (fun body => body);
  WebPage.String_of := fun _ => "[object Object]"
|}.

(** The model's answer with the first two sample meals, each of which has
    a card, its 200 response and a tool output that carries the latter. *)
Definition two_meals : value := VArr [Sample.big_mac_meal; Sample.blueberries].

Definition world_two_meals : AnalyzeFood.World := {|
  AnalyzeFood.request_json := AnalyzeFood.request_json Sample.world;
  AnalyzeFood.OPENAI_API_KEY := Some "sk-sample";
  AnalyzeFood.fetch := AnalyzeFood.fetch Sample.world;
  AnalyzeFood.JSON_parse := fun _ =>
    Ok (Sample.object [("dailyTotals", Sample.nutrients 0 0 0 0);
                       ("loggedMeals", two_meals)])
|}.

Definition two_meals_payload : value :=
  Sample.object
    [("structuredContent", AnalyzeFood.body (AnalyzeFood.POST world_two_meals).1)].


(** A tool output whose error is an object. *)
Definition object_error_payload : value :=
  Sample.object [("foodDescription", VStr "pizza");
                 ("error", Sample.object [("message", VStr "quota exceeded")])].

Definition typing (text : string) : WebPage.State :=
  {| WebPage.messages := []; WebPage.input := text; WebPage.isLoading := false |}.

End Demo.

(** * Properties *)

(** ** The error monad and the traversals *)

Lemma bind_Ok {A B : Type} (r : result A) (f : A -> result B) (b : B) :
  r ≫= f = Ok b <-> exists a, r = Ok a /\ f a = Ok b.
Proof.
  destruct r as [a|e]; simpl; split.
  - intros Hf. by exists a.
  - by intros (a' & [= <-] & Hf).
  - done.
  - by intros (a' & [=] & _).
Qed.

Section Traversals.
Context {A B : Type}.

Lemma js_map_Forall2 (f : A -> result B) (l : list A) (l' : list B) :
  js_map f l = Ok l' <-> Forall2 (fun x y => f x = Ok y) l l'.
Proof.
  revert l'. induction l as [|x l IH]; intros l'.
  - split.
    + intros [= <-]. constructor.
    + intros Hl. by inversion Hl.
  - cbn [js_map]. rewrite bind_Ok. split.
    + intros (y & Hy & Hrest). apply bind_Ok in Hrest as (ys & Hys & [= <-]).
      constructor; [done|]. by apply IH.
    + intros Hl. inversion Hl as [|? y ? ys Hy Hys]; subst.
      exists y. split; [done|]. apply bind_Ok. exists ys. split; [|done]. by apply IH.
Qed.

Lemma js_map_length (f : A -> result B) (l : list A) (l' : list B) :
  js_map f l = Ok l' -> length l' = length l.
Proof. rewrite js_map_Forall2. intros Hl. symmetry. by eapply Forall2_length. Qed.

Lemma js_map_lookup (f : A -> result B) (l : list A) (l' : list B) (i : nat) (y : B) :
  js_map f l = Ok l' -> l' !! i = Some y -> exists x, l !! i = Some x /\ f x = Ok y.
Proof.
  rewrite js_map_Forall2. intros Hl Hy.
  destruct (Forall2_lookup_r _ _ _ _ _ Hl Hy) as (x & Hx & Hf). by exists x.
Qed.

End Traversals.

(** ** Properties of objects *)

Section Objects.
Context {H : Host}.

Lemma prop_insert (o : gmap string (value num)) (k : string) (v : value num) :
  Js.prop (VObj (<[k := v]> o)) k = v.
Proof. unfold Js.prop. by rewrite lookup_insert_eq. Qed.

Lemma prop_insert_ne (o : gmap string (value num)) (k k' : string) (v : value num) :
  k <> k' -> Js.prop (VObj (<[k := v]> o)) k' = Js.prop (VObj o) k'.
Proof. intros Hk. unfold Js.prop. by rewrite lookup_insert_ne. Qed.


End Objects.

(** ** The correction *)

Section Correction.
Context {H : Host}.
Import AnalyzeFood.

#[local] Abbreviation value := (value num).

Lemma prop_to_object (f : field) (t : Totals) :
  Js.prop (to_object t) (key f) = component f t.
Proof. by destruct f. Qed.

Lemma component_round (f : field) (t : Totals) :
  component f (round_totals t) = Js.Math_round (component f t).
Proof. by destruct f. Qed.

Lemma component_initial (f : field) : component f initial = Js.zero.
Proof. by destruct f. Qed.

(** One step of either reduction adds, field by field, the term read from
    the element. *)
Ltac step_inversion Hstep :=
  unfold add_ingredient, add_meal in Hstep;
  apply bind_Ok in Hstep as (?c & ?Hc & Hstep);
  apply bind_Ok in Hstep as (?p & ?Hp & Hstep);
  apply bind_Ok in Hstep as (?b & ?Hb & Hstep);
  apply bind_Ok in Hstep as (?x & ?Hx & Hstep);
  injection Hstep as <-.

Lemma add_ingredient_component (f : field) (acc acc' : Totals) (ingredient : value) :
  add_ingredient acc ingredient = Ok acc' ->
  exists x, ingredient_nutrient (key f) ingredient = Ok x
            /\ component f acc' = Js.plus (component f acc) x.
Proof. intros Hstep. step_inversion Hstep. destruct f; eauto. Qed.

Lemma add_meal_component (f : field) (acc acc' : Totals) (meal : value) :
  add_meal acc meal = Ok acc' ->
  exists x, meal_total (key f) meal = Ok x
            /\ component f acc' = Js.plus (component f acc) x.
Proof. intros Hstep. step_inversion Hstep. destruct f; eauto. Qed.

(** A reduction whose every step adds one term per field computes, in each
    field, the left-to-right sum of the terms. *)
Lemma reduce_component
    (step : Totals -> value -> result Totals) (term : string -> value -> result value) :
  (forall f acc acc' x, step acc x = Ok acc' ->
     exists y, term (key f) x = Ok y /\ component f acc' = Js.plus (component f acc) y) ->
  forall f l acc t, js_reduce step l acc = Ok t ->
    exists terms, js_map (term (key f)) l = Ok terms
                  /\ component f t = fold_left Js.plus terms (component f acc).
Proof.
  intros Hstep f l. induction l as [|x l IH]; intros acc t Hred.
  - injection Hred as <-. by exists [].
  - cbn [js_reduce] in Hred. apply bind_Ok in Hred as (acc' & Hacc' & Hred).
    destruct (Hstep f _ _ _ Hacc') as (y & Hy & Hplus).
    destruct (IH _ _ Hred) as (terms & Hterms & Hsum).
    exists (y :: terms). split.
    + cbn [js_map]. rewrite Hy, Hterms. done.
    + rewrite Hsum, Hplus. done.
Qed.

Lemma reduce_ingredients (f : field) (l : list value) (t : Totals) :
  js_reduce add_ingredient l initial = Ok t ->
  exists terms, js_map (ingredient_nutrient (key f)) l = Ok terms
                /\ component f t = sum terms.
Proof.
  intros Hred.
  destruct (reduce_component add_ingredient ingredient_nutrient
              (fun f' acc acc' x => add_ingredient_component f' acc acc' x) f l _ _ Hred)
    as (terms & Hterms & Hsum).
  exists terms. by rewrite Hsum, component_initial.
Qed.

Lemma reduce_meals (f : field) (l : list value) (t : Totals) :
  js_reduce add_meal l initial = Ok t ->
  exists terms, js_map (meal_total (key f)) l = Ok terms
                /\ component f t = sum terms.
Proof.
  intros Hred.
  destruct (reduce_component add_meal meal_total
              (fun f' acc acc' x => add_meal_component f' acc acc' x) f l _ _ Hred)
    as (terms & Hterms & Hsum).
  exists terms. by rewrite Hsum, component_initial.
Qed.

(** On numbers the sum is the engine's numeric sum, and its rounding the
    engine's [Math.round] of it. *)
Lemma fold_plus_numbers (ns : list num) (acc : num) :
  fold_left Js.plus (map VNum ns) (VNum acc) = VNum (fold_left num_add ns acc).
Proof.
  revert acc. induction ns as [|n ns IH]; intros acc; [done|]. cbn [map fold_left].
  apply IH.
Qed.

Lemma round_sum_numbers (ns : list num) :
  Js.Math_round (sum (map VNum ns)) = VNum (num_round (fold_left num_add ns num_0)).
Proof. unfold sum, Js.zero. by rewrite fold_plus_numbers. Qed.

(** What [correct_meal] can return: the meal itself, or the meal with its
    [total_nutrients] replaced, the latter exactly when [ingredients] is a
    non-empty array. *)
Lemma correct_meal_inv (meal meal' : value) :
  correct_meal meal = Ok meal' ->
  (meal' = meal /\ forall x l, Js.prop meal "ingredients" <> VArr (x :: l))
  \/ (exists o x l t,
        meal = VObj o /\ o !! "ingredients" = Some (VArr (x :: l))
        /\ js_reduce add_ingredient (x :: l) initial = Ok t
        /\ meal' = VObj (<["total_nutrients" := to_object (round_totals t)]> o)).
Proof.
  unfold correct_meal. intros Hc.
  apply bind_Ok in Hc as (ingredients & Hget & Hc).
  assert (Hprop : Js.prop meal "ingredients" = ingredients).
  { by destruct meal; simplify_eq/=. }
  destruct (Js.truthy ingredients && Js.length_gt_0 ingredients) eqn:Hcond.
  - destruct ingredients as [| | | | |l|]; try done.
    destruct l as [|x l]; [done|].
    apply bind_Ok in Hc as (t & Ht & Hc).
    destruct meal as [| | | | | |o]; try done.
    right. exists o, x, l, t. injection Hc as <-.
    split_and!; try done.
    simpl in Hprop. by destruct (o !! "ingredients"); simplify_eq/=.
  - left. injection Hc as <-. split; [done|].
    intros x l Hx. rewrite Hprop in Hx. rewrite Hx in Hcond. done.
Qed.

End Correction.

(** ** The handler *)

Section Handler.
Context {H : Host}.
Import AnalyzeFood.

#[local] Abbreviation value := (value num).

(** [NextResponse.json] returns what it was given, or throws. *)
Lemma NextResponse_json_inv (b : value) (s : nat) (r : Response) :
  NextResponse_json b s = Ok r -> r = {| status := s; body := b |}.
Proof.
  unfold NextResponse_json. repeat case_bool_decide; try done. by intros [= <-].
Qed.



(** The three ways the statements after the [fetch] return a response. *)
Lemma after_fetch_inv (w : World) (response : Upstream) (r : Response) :
  after_fetch w response = Ok r ->
  (up_ok response = false /\ status r = up_status response
   /\ exists errorData error,
        up_json response = Ok errorData /\ Js.get errorData "error" = Ok error
        /\ body r = error_body (Js.or (Js.opt_get error "message")
                                      (VStr "Failed to process food data")))
  \/ (up_ok response = true /\ status r = 500
      /\ body r = error_body (VStr "Invalid response format from AI"))
  \/ (up_ok response = true /\ status r = 200
      /\ exists data,
           completion_data w response = Ok data
           /\ Js.truthy (Js.prop data "dailyTotals") = true
           /\ Js.truthy (Js.prop data "loggedMeals") = true
           /\ correct (Js.prop data "loggedMeals") = Ok (body r)).
Proof.
  unfold after_fetch. intros Hr. destruct (up_ok response) eqn:Hok; simpl in Hr.
  - right.
    apply bind_Ok in Hr as (data & Hdata & Hr).
    apply bind_Ok in Hr as (dailyTotals & Hd & Hr).
    apply bind_Ok in Hr as (loggedMeals & Hl & Hr).
    assert (dailyTotals = Js.prop data "dailyTotals") as ->
      by (by destruct data; simplify_eq/=).
    assert (loggedMeals = Js.prop data "loggedMeals") as ->
      by (by destruct data; simplify_eq/=).
    destruct (Js.truthy (Js.prop data "dailyTotals")) eqn:Hd'; simpl in Hr.
    + destruct (Js.truthy (Js.prop data "loggedMeals")) eqn:Hl'; simpl in Hr.
      * right. apply bind_Ok in Hr as (corrected & Hc & [= <-]).
        split_and!; try done. by exists data.
      * left. by injection Hr as <-.
    + left. by injection Hr as <-.
  - left.
    apply bind_Ok in Hr as (errorData & He & Hr).
    apply bind_Ok in Hr as (error & Hg & ->%NextResponse_json_inv).
    split_and!; try done. by exists errorData, error.
Qed.

(** A response that is not an upstream success has a status outside the
    200s. *)
Lemma up_ok_false_status (response : Upstream) :
  up_ok response = false -> up_status response <> 200.
Proof.
  unfold up_ok. intros Hok Hs. apply bool_decide_eq_false in Hok. lia.
Qed.

(** A 200 response carries the outcome of the correction. *)
Lemma POST_200_inv (w : World) :
  status (POST w).1 = 200 ->
  exists data,
    Js.truthy (Js.prop data "dailyTotals") = true
    /\ Js.truthy (Js.prop data "loggedMeals") = true
    /\ correct (Js.prop data "loggedMeals") = Ok (body (POST w).1).
Proof.
  unfold POST, try_block.
  destruct (request_json w) as [requestBody|e]; [|done].
  destruct (Js.get requestBody "foodDescription") as [foodDescription|e]; [|done].
  destruct (Js.truthy foodDescription); [|done]. simpl.
  destruct (OPENAI_API_KEY w) as [apiKey|]; [|done].
  destruct apiKey as [|c apiKey]; [done|].
  destruct (fetch w _) as [response|e]; [|done]. simpl.
  destruct (after_fetch w response) as [r|e] eqn:Hr; [|done]. simpl.
  intros Hs.
  destruct (after_fetch_inv _ _ _ Hr) as [(Hok & Hst & _)|[(_ & Hst & _)|(_ & _ & Hdata)]].
  - apply up_ok_false_status in Hok. congruence.
  - congruence.
  - destruct Hdata as (data & _ & Hdata). by exists data.
Qed.

(** What the correction returns: the corrected meals and the totals reduced
    from them. *)
Lemma correct_inv (loggedMeals corrected : value) :
  correct loggedMeals = Ok corrected ->
  exists meals correctedMeals correctedDailyTotals,
    loggedMeals = VArr meals
    /\ js_map correct_meal meals = Ok correctedMeals
    /\ js_reduce add_meal correctedMeals initial = Ok correctedDailyTotals
    /\ corrected = VObj (<["dailyTotals" := to_object (round_totals correctedDailyTotals)]>
                        (<["loggedMeals" := VArr correctedMeals]> ∅)).
Proof.
  unfold correct. intros Hc.
  destruct loggedMeals as [| | | | |meals|]; try done.
  apply bind_Ok in Hc as (correctedMeals & Hmap & Hc).
  apply bind_Ok in Hc as (correctedDailyTotals & Hred & [= <-]).
  by exists meals, correctedMeals, correctedDailyTotals.
Qed.

End Handler.

(** ** The totals after the correction

    The totals of the value the correction returns, which by [POST_200_inv]
    is the value every 200 response is made from. *)

Section Totals.
Context {H : Host}.
Import AnalyzeFood.

#[local] Abbreviation value := (value num).

(** The terms the two reductions add are the quantities read off the
    objects. *)
Lemma ingredient_nutrient_of (k : string) (ingredient x : value) :
  ingredient_nutrient k ingredient = Ok x -> x = Spec.nutrient_of k ingredient.
Proof.
  unfold ingredient_nutrient, Spec.nutrient_of, Spec.entry, Spec.counted.
  destruct ingredient as [| | | | | |o]; try (by intros [= <-]).
  cbn [Js.get Js.prop mbind result_bind].
  destruct (o !! "nutrients") as [[| | | | | |n]|]; try (by intros [= <-]).
  intros [= <-]. unfold Js.or, Js.zero. cbn [default id Js.opt_get Js.prop].
  by destruct (n !! k) as [v|].
Qed.

Lemma meal_total_of (k : string) (meal x : value) :
  meal_total k meal = Ok x -> x = Spec.total_of k meal.
Proof.
  unfold meal_total, Spec.total_of, Spec.entry, Spec.counted.
  destruct meal as [| | | | | |o]; try (by intros [= <-]).
  cbn [Js.get Js.prop mbind result_bind].
  destruct (o !! "total_nutrients") as [[| | | | | |n]|]; try (by intros [= <-]).
  intros [= <-]. unfold Js.or, Js.zero. cbn [default id Js.opt_get Js.prop].
  by destruct (n !! k) as [v|].
Qed.

Lemma js_map_pointwise {A B} (f : A -> result B) (g : A -> B) (l : list A) (ys : list B) :
  (forall x y, f x = Ok y -> y = g x) ->
  js_map f l = Ok ys -> ys = map g l.
Proof.
  intros Hfg. revert ys. induction l as [|x l IH]; intros ys Hmap.
  - by injection Hmap as <-.
  - cbn [js_map] in Hmap.
    apply bind_Ok in Hmap as (y & Hy & Hmap).
    apply bind_Ok in Hmap as (ys' & Hys' & [= <-]).
    cbn [map]. by rewrite (Hfg _ _ Hy), (IH _ Hys').
Qed.

(** Quantities that are numbers add up as numbers. *)
Lemma numbers_of_Forall2 (g : value -> value) (l : list value) (amounts : list num) :
  Forall2 (fun x n => g x = VNum n) l amounts -> map g l = map VNum amounts.
Proof. induction 1 as [|x n l ns Hx _ IH]; [done|]. cbn [map]. by rewrite Hx, IH. Qed.

(** A meal that [correct_meal] returns with a non-empty [ingredients] array
    has been given the rounded sums of that very array. *)
Lemma corrected_meal_totals (meal meal' : value) (ingredients : list value) (f : field) :
  correct_meal meal = Ok meal' ->
  Js.prop meal' "ingredients" = VArr ingredients ->
  ingredients <> [] ->
  Js.prop (Js.prop meal' "total_nutrients") (key f)
  = Js.Math_round (sum (map (Spec.nutrient_of (key f)) ingredients)).
Proof.
  intros Hc Hi Hne.
  destruct (correct_meal_inv _ _ Hc) as [[-> Hnot]|(o & x & l & t & -> & Ho & Ht & ->)].
  - destruct ingredients as [|x l]; [done|]. by destruct (Hnot x l).
  - rewrite prop_insert_ne in Hi by done. unfold Js.prop in Hi. rewrite Ho in Hi.
    injection Hi as <-.
    destruct (reduce_ingredients f _ _ Ht) as (terms & Hterms & Hsum).
    apply (js_map_pointwise _ (Spec.nutrient_of (key f))) in Hterms as ->;
      [|apply ingredient_nutrient_of].
    by rewrite prop_insert, prop_to_object, component_round, Hsum.
Qed.

(** C1: after the totals-consistency correction, every meal whose
    [ingredients] is a non-empty array has, in each of the four fields of
    its [total_nutrients], the nearest-integer rounding of the sum of that
    field over its ingredients' nutrients.  The terms of the sum are the
    entries of the ingredients' [nutrients] objects themselves, a missing or
    falsy one counted as [0]; they are added with the engine's [+], in order
    from [0], and the sum is rounded once.  Where these entries are numbers,
    the field is the number [Math.round] gives for their numeric sum. *)
Theorem meal_totals_are_rounded_sums (loggedMeals corrected : value) :
  correct loggedMeals = Ok corrected ->
  exists meals,
    Js.prop corrected "loggedMeals" = VArr meals
    /\ forall meal ingredients f,
         meal ∈ meals ->
         Js.prop meal "ingredients" = VArr ingredients ->
         ingredients <> [] ->
         Js.prop (Js.prop meal "total_nutrients") (key f)
         = Js.Math_round
             (fold_left Js.plus (map (Spec.nutrient_of (key f)) ingredients) (VNum num_0))
         /\ forall amounts,
              Forall2 (fun ingredient n => Spec.nutrient_of (key f) ingredient = VNum n)
                      ingredients amounts ->
              Js.prop (Js.prop meal "total_nutrients") (key f)
              = VNum (num_round (fold_left num_add amounts num_0)).
Proof.
  intros Hc.
  destruct (correct_inv _ _ Hc) as (meals & cms & daily & _ & Hmap & _ & ->).
  exists cms. split; [by rewrite prop_insert_ne, prop_insert|].
  intros meal ingredients f Hin Hi Hne.
  apply list_elem_of_lookup in Hin as (i & Hin).
  destruct (js_map_lookup _ _ _ _ _ Hmap Hin) as (meal0 & _ & Hmeal).
  pose proof (corrected_meal_totals _ _ _ f Hmeal Hi Hne) as Htotal.
  split; [done|].
  intros amounts Hamounts. rewrite Htotal.
  rewrite (numbers_of_Forall2 _ _ _ Hamounts). apply round_sum_numbers.
Qed.

(** C2: after the totals-consistency correction, each of the four fields of
    [dailyTotals] is the nearest-integer rounding of the sum of that field
    over the [total_nutrients] of the meals of [loggedMeals], which are the
    corrected meals.  The terms of the sum are the entries of the meals'
    [total_nutrients] objects themselves, a missing or falsy one counted as
    [0]; they are added with the engine's [+], in order from [0], and the sum
    is rounded once.  Where these entries are numbers, the field is the
    number [Math.round] gives for their numeric sum. *)
Theorem daily_totals_are_rounded_sums (loggedMeals corrected : value) :
  correct loggedMeals = Ok corrected ->
  exists meals,
    Js.prop corrected "loggedMeals" = VArr meals
    /\ forall f,
         Js.prop (Js.prop corrected "dailyTotals") (key f)
         = Js.Math_round
             (fold_left Js.plus (map (Spec.total_of (key f)) meals) (VNum num_0))
         /\ forall amounts,
              Forall2 (fun meal n => Spec.total_of (key f) meal = VNum n) meals amounts ->
              Js.prop (Js.prop corrected "dailyTotals") (key f)
              = VNum (num_round (fold_left num_add amounts num_0)).
Proof.
  intros Hc.
  destruct (correct_inv _ _ Hc) as (meals & cms & daily & _ & _ & Hred & ->).
  exists cms. split; [by rewrite prop_insert_ne, prop_insert|].
  intros f. destruct (reduce_meals f _ _ Hred) as (terms & Hterms & Hsum).
  apply (js_map_pointwise _ (Spec.total_of (key f))) in Hterms as ->;
    [|apply meal_total_of].
  assert (Js.prop (Js.prop (VObj (<["dailyTotals" := to_object (round_totals daily)]>
                                  (<["loggedMeals" := VArr cms]> ∅))) "dailyTotals") (key f)
          = Js.Math_round (sum (map (Spec.total_of (key f)) cms))) as Htotal.
  { by rewrite prop_insert, prop_to_object, component_round, Hsum. }
  split; [done|].
  intros amounts Hamounts. rewrite Htotal.
  rewrite (numbers_of_Forall2 _ _ _ Hamounts). apply round_sum_numbers.
Qed.

End Totals.

(** ** The correction as a function of the meal list *)

Section Corrector.
Context {H : Host}.
Import AnalyzeFood.

#[local] Abbreviation value := (value num).

(** The meal object with a non-empty [ingredients] array. *)
Lemma correct_meal_object (o : gmap string value) (x : value) (l : list value) :
  o !! "ingredients" = Some (VArr (x :: l)) ->
  correct_meal (VObj o)
  = calculatedTotals ← js_reduce add_ingredient (x :: l) initial;
    Ok (VObj (<["total_nutrients" := to_object (round_totals calculatedTotals)]> o)).
Proof. intros Ho. unfold correct_meal, Js.get, Js.prop. by rewrite Ho. Qed.

(** Correcting a corrected meal returns it as it is. *)
Lemma correct_meal_fixed (meal meal' : value) :
  correct_meal meal = Ok meal' -> correct_meal meal' = Ok meal'.
Proof.
  intros Hc.
  destruct (correct_meal_inv _ _ Hc) as [[-> _]|(o & x & l & t & -> & Ho & Ht & ->)];
    [done|].
  rewrite (correct_meal_object _ x l) by (by rewrite lookup_insert_ne).
  rewrite Ht. cbn [mbind result_bind]. by rewrite insert_insert_eq.
Qed.

Lemma js_map_fixed (meals correctedMeals : list value) :
  js_map correct_meal meals = Ok correctedMeals ->
  js_map correct_meal correctedMeals = Ok correctedMeals.
Proof.
  rewrite !js_map_Forall2. induction 1 as [|meal meal' ? ? Hc _ IH]; constructor.
  - by eapply correct_meal_fixed.
  - done.
Qed.

(** C3: the correction (the per-meal recomputation followed by the
    recomputation of the daily totals) is a function of the meal list alone,
    and it is idempotent: applied to the meals of its own output it returns
    that same output, meals and daily totals. *)
Theorem correct_idempotent (loggedMeals corrected : value) :
  correct loggedMeals = Ok corrected ->
  correct (Js.prop corrected "loggedMeals") = Ok corrected.
Proof.
  intros Hc.
  destruct (correct_inv _ _ Hc) as (meals & cms & daily & -> & Hmap & Hred & ->).
  rewrite prop_insert_ne, prop_insert by done.
  unfold correct. rewrite (js_map_fixed _ _ Hmap). cbn [mbind result_bind].
  by rewrite Hred.
Qed.

(** C9: the correction keeps the number and the order of the meals; a meal
    whose [ingredients] is not a non-empty array (no ingredients at all, or
    an empty list) is returned as it is, reported total included; and in
    every meal each property other than [total_nutrients] (the name, the
    size, the ingredients and any other) is what it was. *)
Theorem correct_frame (loggedMeals corrected : value) :
  correct loggedMeals = Ok corrected ->
  exists meals meals',
    loggedMeals = VArr meals
    /\ Js.prop corrected "loggedMeals" = VArr meals'
    /\ length meals' = length meals
    /\ forall i meal, meals !! i = Some meal ->
         exists meal',
           meals' !! i = Some meal'
           /\ ((forall x l, Js.prop meal "ingredients" <> VArr (x :: l)) -> meal' = meal)
           /\ (forall k, k <> "total_nutrients" -> Js.prop meal' k = Js.prop meal k).
Proof.
  intros Hc.
  destruct (correct_inv _ _ Hc) as (meals & cms & daily & -> & Hmap & _ & ->).
  exists meals, cms. split_and!.
  - done.
  - by rewrite prop_insert_ne, prop_insert.
  - by eapply js_map_length.
  - intros i meal Hi. apply js_map_Forall2 in Hmap.
    destruct (Forall2_lookup_l _ _ _ _ _ Hmap Hi) as (meal' & Hi' & Hmeal).
    exists meal'. split; [done|].
    destruct (correct_meal_inv _ _ Hmeal) as [[-> _]|(o & x & l & t & -> & Ho & _ & ->)].
    + done.
    + split.
      * intros Hnot. destruct (Hnot x l). unfold Js.prop. by rewrite Ho.
      * intros k Hk. by rewrite prop_insert_ne.
Qed.








End Corrector.

(** ** The failures of the handler *)

Section Failures.
Context {H : Host}.
Import AnalyzeFood.

#[local] Abbreviation value := (value num).




(** C8: when the request body has no [foodDescription], or an empty one
    (in general: a falsy one), the response is 400 with body exactly
    [{ error: "Food description is required" }], and no outbound call is
    made. *)
Theorem missing_description_is_400 (w : World) (requestBody foodDescription : value) :
  request_json w = Ok requestBody ->
  Js.get requestBody "foodDescription" = Ok foodDescription ->
  Js.truthy foodDescription = false ->
  POST w = ({| status := 400;
               body := error_body (VStr "Food description is required") |}, []).
Proof.
  intros Hreq Hget Hfd. unfold POST, try_block. by rewrite Hreq, Hget, Hfd.
Qed.


End Failures.

(** ** The widget *)

Section Widget.
Context {H : Host}.
Import Macros.

#[local] Abbreviation value := (value num).

(** The last rule of the component, in the specification's words. *)
Lemma raw_meal_data_spec (toolOutput : value) :
  Spec.raw_meal_data toolOutput
  = if Js.truthy toolOutput && Js.typeof_object toolOutput then
      if Js.has "loggedMeals" toolOutput || Js.has "dailyTotals" toolOutput
      then Some toolOutput else None
    else None.
Proof.
  destruct toolOutput as [| |b|n|s|l|o]; cbn; try done.
  - by destruct b.
  - by destruct (num_truthy n).
  - by destruct (negb _).
  - destruct (o !! "loggedMeals"), (o !! "dailyTotals"); cbn;
      repeat case_bool_decide; try done; naive_solver.
Qed.

(** The optional chain reads what the plain read would: [undefined] on
    [null] and [undefined], where the plain read is never evaluated. *)
Lemma opt_get_prop (v : value) (k : string) : Js.opt_get v k = Js.prop v k.
Proof. by destruct v. Qed.

(** C5: for every tool output the reconciler returns the first match, in
    this order, of: the nested [result.structuredContent]; the top-level
    [structuredContent]; the top-level [result]; the output itself when it
    is an object with a [loggedMeals] or a [dailyTotals] key; and [null]
    when none matches.  In particular, from an object whose [result] holds
    [structuredContent: X] it extracts [X], and from an object without
    [result] that holds [structuredContent: X] it extracts [X], for every
    truthy [X], as every object is. *)
Theorem mealData_first_match :
  (forall toolOutput : value,
     mealData toolOutput
     = default VNull (Spec.first_match Spec.extraction_rules toolOutput))
  /\ (forall (o r : gmap string value) (X : value),
        o !! "result" = Some (VObj r) ->
        r !! "structuredContent" = Some X ->
        Js.truthy X = true ->
        mealData (VObj o) = X)
  /\ (forall (o : gmap string value) (X : value),
        o !! "result" = None ->
        o !! "structuredContent" = Some X ->
        Js.truthy X = true ->
        mealData (VObj o) = X).
Proof.
  split_and!.
  - intros toolOutput.
    unfold mealData, Spec.extraction_rules, Spec.first_match.
    unfold Spec.nested_structured_content, Spec.top_level_structured_content,
      Spec.top_level_result, Spec.present.
    rewrite raw_meal_data_spec.
    rewrite !opt_get_prop.
    destruct (Js.truthy (Js.prop (Js.prop toolOutput "result") "structuredContent"));
      [done|].
    destruct (Js.truthy (Js.prop toolOutput "structuredContent")); [done|].
    destruct (Js.truthy (Js.prop toolOutput "result")); [done|].
    destruct (Js.truthy toolOutput && Js.typeof_object toolOutput); [|done].
    by destruct (Js.has "loggedMeals" toolOutput || Js.has "dailyTotals" toolOutput).
  - intros o r X Ho Hr HX.
    assert (Js.prop (Js.prop (VObj o) "result") "structuredContent" = X) as Hnested.
    { unfold Js.prop. rewrite Ho. simpl. by rewrite Hr. }
    unfold mealData. by rewrite !opt_get_prop, Hnested, HX.
  - intros o X Ho Hs HX.
    assert (Js.prop (VObj o) "result" = VUndefined) as Hresult.
    { unfold Js.prop. by rewrite Ho. }
    assert (Js.prop (VObj o) "structuredContent" = X) as Htop.
    { unfold Js.prop. by rewrite Hs. }
    unfold mealData. rewrite !opt_get_prop, Hresult, Htop, HX. done.
Qed.

(** C6: on a [null] tool output the effect sets the loading flag; the
    component shows the loading view, on its first render as well as after
    the effect; what it shows is neither the error panel (there is no error)
    nor the "No meal data available" view. *)
Theorem null_is_loading :
  effect (VNull : value) = true
  /\ render initial_isLoading (VNull : value) = LoadingView
  /\ settled (VNull : value) = LoadingView
  /\ Js.truthy (error (VNull : value)) = false.
Proof. done. Qed.


End Widget.

(** ** The model at work *)

Section Runs.
Import IEEE AnalyzeFood Macros.

#[local] Abbreviation value := (value float).

Example sample_status : status Sample.response = 200.
Proof. vm_compute. reflexivity. Qed.

Example sample_one_call :
  (POST Sample.world).2
  = [{| authorization := "Bearer sk-sample";
        described := VStr "Big Mac meal, blueberries, water" |}].
Proof. vm_compute. reflexivity. Qed.

(** 540.5 + 365.25 + 210 = 1115.75, rounded once; the missing fields of the
    third ingredient count 0. *)
Example sample_big_mac_total :
  correct_meal Sample.big_mac_meal ≫= (fun meal => Ok (Js.prop meal "total_nutrients"))
  = Ok (Sample.nutrients 1116 29 88 42).
Proof. vm_compute. reflexivity. Qed.

(** The sum is rounded, not the terms: 0.5 + 0.5 gives 1, where rounding
    each term first would give 2; 0.25 + 0.25 gives 1, where it would
    give 0. *)
Example sample_sum_then_round :
  correct_meal Sample.two_halves ≫= (fun meal => Ok (Js.prop meal "total_nutrients"))
  = Ok (Sample.nutrients 1 0 1 0).
Proof. vm_compute. reflexivity. Qed.

(** The meals without ingredients come back as they were. *)
Example sample_unchanged :
  correct_meal Sample.blueberries = Ok Sample.blueberries
  /\ correct_meal Sample.water = Ok Sample.water.
Proof. split; vm_compute; reflexivity. Qed.

(** 1116 + 57 + 0, 29 + 1 + 0, 88 + 14.5 + 0 = 102.5 rounded up, 42 + 0 + 0. *)
Example sample_daily_totals :
  Js.prop (body Sample.response) "dailyTotals" = Sample.nutrients 1173 30 103 42.
Proof. vm_compute. reflexivity. Qed.

(** A [null] meal makes the correction throw, and the handler answer 500. *)
Example null_meal_throws :
  correct (VArr [VNull : value])
  = Throw (TypeError "Cannot read properties of null (reading 'ingredients')").
Proof. vm_compute. reflexivity. Qed.

Example round_examples :
  map IEEE.round [0.5; 1.5; 2.5; -0.5; -2.5; -2.75; 102.5; 1115.75]%float
  = [1; 2; 3; -0; -2; -3; 103; 1116]%float.
Proof. vm_compute. reflexivity. Qed.

Example pending_payload_keeps_loading :
  mealData Sample.pending_payload = Sample.pending_payload
  /\ settled Sample.pending_payload = LoadingView.
Proof. split; vm_compute; reflexivity. Qed.

(** The first two sample meals are shown as cards; the third has no
    [ingredients], its card throws and takes the widget with it. *)
Example two_meals_show_cards :
  exists cards, settled Demo.two_meals_payload = MealCards cards /\ length cards = 2.
Proof. eexists. split; vm_compute; reflexivity. Qed.

Example nested_payload_throws :
  settled Sample.nested_payload
  = RenderError (TypeError "Cannot read properties of undefined (reading 'length')").
Proof. vm_compute. reflexivity. Qed.

(** An error that is an object is not shown. *)
Example object_error_throws :
  hasFoodDescription Demo.object_error_payload = true
  /\ settled Demo.object_error_payload = RenderError React.invalid_child.
Proof. split; vm_compute; reflexivity. Qed.

End Runs.

(** ** The theorems at the sample inputs *)

Section Instances.
Import IEEE AnalyzeFood Macros.

#[local] Abbreviation value := (value float).

(** The correction of the sample meals, which the sample response
    carries; and the calories and the fat of its first meal, whose third
    ingredient reports no fat. *)
Lemma meal_totals_at_sample :
  (exists meals,
     Js.prop (body Sample.response) "loggedMeals" = VArr meals
     /\ forall meal ingredients f,
          meal ∈ meals ->
          Js.prop meal "ingredients" = VArr ingredients ->
          ingredients <> [] ->
          Js.prop (Js.prop meal "total_nutrients") (key f)
          = Js.Math_round
              (fold_left Js.plus (map (Spec.nutrient_of (key f)) ingredients) (VNum num_0))
          /\ forall amounts,
               Forall2 (fun ingredient n => Spec.nutrient_of (key f) ingredient = VNum n)
                       ingredients amounts ->
               Js.prop (Js.prop meal "total_nutrients") (key f)
               = VNum (num_round (fold_left num_add amounts num_0)))
  /\ Js.prop (Js.prop Demo.corrected_big_mac "total_nutrients") "calories"
     = VNum (IEEE.round (0 + 540.5 + 365.25 + 210)%float)
  /\ Js.prop (Js.prop Demo.corrected_big_mac "total_nutrients") "fat"
     = VNum (IEEE.round (0 + 25 + 17 + 0)%float).
Proof.
  pose proof (meal_totals_are_rounded_sums (H := IEEE.host) Sample.loggedMeals
                (body Sample.response) eq_refl) as Htotals.
  split; [exact Htotals|].
  destruct Htotals as (meals & Hmeals & Htotals).
  injection Hmeals as <-.
  assert (forall f,
            Js.prop (Js.prop Demo.corrected_big_mac "total_nutrients") (key f)
            = Js.Math_round
                (fold_left Js.plus
                   (map (Spec.nutrient_of (key f))
                      [Sample.ingredient "Big Mac" (Sample.nutrients 540.5 25.25 40 25);
                       Sample.ingredient "Fries" (Sample.nutrients 365.25 4 48 17);
                       Sample.coke])
                   (VNum num_0))
            /\ forall amounts,
                 Forall2 (fun ingredient n => Spec.nutrient_of (key f) ingredient = VNum n)
                         [Sample.ingredient "Big Mac" (Sample.nutrients 540.5 25.25 40 25);
                          Sample.ingredient "Fries" (Sample.nutrients 365.25 4 48 17);
                          Sample.coke]
                         amounts ->
                 Js.prop (Js.prop Demo.corrected_big_mac "total_nutrients") (key f)
                 = VNum (num_round (fold_left num_add amounts num_0))) as Hbig.
  { intros f. apply Htotals.
    - apply (list_elem_of_here (A := value)).
    - reflexivity.
    - discriminate. }
  split.
  - apply (proj2 (Hbig calories) [540.5; 365.25; 210]%float).
    repeat constructor.
  - apply (proj2 (Hbig fat) [25; 17; 0]%float).
    repeat constructor.
Defined.

(** Likewise for the daily totals; and the daily calories and carbs, the
    third meal having no total. *)
Lemma daily_totals_at_sample :
  (exists meals,
     Js.prop (body Sample.response) "loggedMeals" = VArr meals
     /\ forall f,
          Js.prop (Js.prop (body Sample.response) "dailyTotals") (key f)
          = Js.Math_round
              (fold_left Js.plus (map (Spec.total_of (key f)) meals) (VNum num_0))
          /\ forall amounts,
               Forall2 (fun meal n => Spec.total_of (key f) meal = VNum n) meals amounts ->
               Js.prop (Js.prop (body Sample.response) "dailyTotals") (key f)
               = VNum (num_round (fold_left num_add amounts num_0)))
  /\ Js.prop (Js.prop (body Sample.response) "dailyTotals") "calories"
     = VNum (IEEE.round (0 + 1116 + 57 + 0)%float)
  /\ Js.prop (Js.prop (body Sample.response) "dailyTotals") "carbs"
     = VNum (IEEE.round (0 + 88 + 14.5 + 0)%float).
Proof.
  pose proof (daily_totals_are_rounded_sums (H := IEEE.host) Sample.loggedMeals
                (body Sample.response) eq_refl) as Htotals.
  split; [exact Htotals|].
  destruct Htotals as (meals & Hmeals & Htotals).
  injection Hmeals as <-.
  split.
  - apply (proj2 (Htotals calories) [1116; 57; 0]%float).
    repeat constructor.
  - apply (proj2 (Htotals carbs) [88; 14.5; 0]%float).
    repeat constructor.
Defined.

(** Correcting the meals of the sample response gives the sample response. *)
Lemma correct_idempotent_at_sample :
  correct (Js.prop (body Sample.response) "loggedMeals") = Ok (body Sample.response).
Proof.
  apply (correct_idempotent (H := IEEE.host) Sample.loggedMeals). vm_compute. reflexivity.
Defined.

(** The frame of the correction on the sample meals. *)
Lemma correct_frame_at_sample :
  exists meals meals',
    Sample.loggedMeals = VArr meals
    /\ Js.prop (body Sample.response) "loggedMeals" = VArr meals'
    /\ length meals' = length meals
    /\ forall i meal, meals !! i = Some meal ->
         exists meal',
           meals' !! i = Some meal'
           /\ ((forall x l, Js.prop meal "ingredients" <> VArr (x :: l)) -> meal' = meal)
           /\ (forall k, k <> "total_nutrients" -> Js.prop meal' k = Js.prop meal k).
Proof.
  apply (correct_frame (H := IEEE.host) Sample.loggedMeals). vm_compute. reflexivity.
Defined.


(** A body without the field, and a body with the empty description. *)
Lemma missing_description_at_sample :
  POST Sample.world_no_field
  = ({| status := 400; body := error_body (VStr "Food description is required") |}, [])
  /\ POST Sample.world_no_key_no_description
     = ({| status := 400; body := error_body (VStr "Food description is required") |}, []).
Proof.
  split.
  - apply (missing_description_is_400 Sample.world_no_field (Sample.object []) VUndefined);
      vm_compute; reflexivity.
  - apply (missing_description_is_400 Sample.world_no_key_no_description
             (Sample.request "") (VStr "")); vm_compute; reflexivity.
Defined.



(** The nested and the top-level shapes, and the tool's own output. *)
Lemma mealData_at_sample :
  mealData Sample.nested_payload = Sample.data
  /\ mealData Sample.structured_payload = Sample.data
  /\ mealData Sample.pending_payload
     = default VNull (Spec.first_match Spec.extraction_rules Sample.pending_payload).
Proof.
  destruct (mealData_first_match (H := IEEE.host)) as (Hfirst & Hnested & Htop).
  split_and!.
  - apply (Hnested (list_to_map [("result", Sample.object [("structuredContent", Sample.data)])])
                   (list_to_map [("structuredContent", Sample.data)]));
      vm_compute; reflexivity.
  - apply (Htop (list_to_map [("structuredContent", Sample.data)]));
      vm_compute; reflexivity.
  - apply Hfirst.
Defined.



End Instances.

(** * Further properties *)

(** ** When the correction goes through, and what it returns *)

Section Acceptance.
Context {H : Host}.
Import AnalyzeFood.

#[local] Abbreviation value := (value num).








End Acceptance.

(** ** The 200 response and the calls *)

Section Response.
Context {H : Host}.
Import AnalyzeFood.

#[local] Abbreviation value := (value num).

Lemma dom_to_object (t : Totals) :
  exists o : gmap string value,
    to_object t = VObj o
    /\ dom o = ({["calories"; "protein"; "carbs"; "fat"]} : gset string).
Proof.
  eexists. split; [done|]. rewrite !dom_insert_L, dom_empty_L. set_solver.
Qed.

(** X2: the object a 200 response is made from has exactly the two keys
    [dailyTotals] and [loggedMeals], whatever else the model's answer
    held; [loggedMeals] is an array; [dailyTotals] is an object with
    exactly the four keys [calories], [protein], [carbs] and [fat], and so
    is the [total_nutrients] of every meal with a non-empty [ingredients]
    array, whatever keys the model had put there. *)
Theorem response_shape (w : World) :
  status (POST w).1 = 200 ->
  exists (o daily : gmap string value) (meals : list value),
    body (POST w).1 = VObj o
    /\ dom o = ({["dailyTotals"; "loggedMeals"]} : gset string)
    /\ o !! "loggedMeals" = Some (VArr meals)
    /\ o !! "dailyTotals" = Some (VObj daily)
    /\ dom daily = ({["calories"; "protein"; "carbs"; "fat"]} : gset string)
    /\ (forall meal x l,
          meal ∈ meals ->
          Js.prop meal "ingredients" = VArr (x :: l) ->
          exists total : gmap string value,
            Js.prop meal "total_nutrients" = VObj total
            /\ dom total = ({["calories"; "protein"; "carbs"; "fat"]} : gset string)).
Proof.
  intros Hs.
  destruct (POST_200_inv w Hs) as (data & _ & _ & Hc).
  destruct (correct_inv _ _ Hc) as (meals & cms & t & _ & Hmap & _ & ->).
  destruct (dom_to_object (round_totals t)) as (daily & Hdaily & Hdom).
  eexists _, daily, cms. split_and!.
  - done.
  - rewrite !dom_insert_L, dom_empty_L. set_solver.
  - done.
  - by rewrite lookup_insert_eq, Hdaily.
  - done.
  - intros meal x l Hin Hi.
    apply list_elem_of_lookup in Hin as (i & Hin).
    destruct (js_map_lookup _ _ _ _ _ Hmap Hin) as (meal0 & _ & Hmeal).
    destruct (correct_meal_inv _ _ Hmeal)
      as [[-> Hnot]|(o & x' & l' & t' & -> & Ho & Ht & ->)].
    + by destruct (Hnot x l).
    + rewrite prop_insert. apply dom_to_object.
Qed.

(** X3: the totals the model reported count for nothing where they are
    recomputed: a meal with a non-empty [ingredients] array is corrected to
    the same meal whatever its [total_nutrients] was, and two answers of
    the model with the same [loggedMeals] get the same response whatever
    their (truthy) [dailyTotals] are. *)
Theorem reported_totals_are_ignored :
  (forall (o : gmap string value) (x : value) (l : list value) (reported reported' : value),
     o !! "ingredients" = Some (VArr (x :: l)) ->
     correct_meal (VObj (<["total_nutrients" := reported]> o))
     = correct_meal (VObj (<["total_nutrients" := reported']> o)))
  /\ (forall (w w' : World) (response response' : Upstream) (data data' : value),
        up_ok response = true -> up_ok response' = true ->
        completion_data w response = Ok data ->
        completion_data w' response' = Ok data' ->
        Js.truthy (Js.prop data "dailyTotals") = true ->
        Js.truthy (Js.prop data' "dailyTotals") = true ->
        Js.prop data "loggedMeals" = Js.prop data' "loggedMeals" ->
        after_fetch w response = after_fetch w' response').
Proof.
  split.
  - intros o x l reported reported' Ho.
    rewrite !(correct_meal_object _ x l) by (by rewrite lookup_insert_ne).
    destruct (js_reduce add_ingredient (x :: l) initial); [|done].
    cbn [mbind result_bind]. by rewrite !insert_insert_eq.
  - intros w w' response response' data data' Hok Hok' Hd Hd' Ht Ht' Hl.
    unfold after_fetch. rewrite Hok, Hok', Hd, Hd'. cbn [negb mbind result_bind].
    assert (forall d : value, Js.truthy (Js.prop d "dailyTotals") = true ->
              Js.get d "dailyTotals" = Ok (Js.prop d "dailyTotals")
              /\ Js.get d "loggedMeals" = Ok (Js.prop d "loggedMeals")) as Hget
      by (by intros []).
    destruct (Hget _ Ht) as [-> ->]. destruct (Hget _ Ht') as [-> ->].
    cbn [mbind result_bind]. by rewrite Ht, Ht', Hl.
Qed.

(** X4: the handler calls the completion API at most once, and only when
    the request carries a truthy description and the API key is set; the
    call then carries that key as bearer token and that description. *)
Theorem at_most_one_call (w : World) :
  (POST w).2 = []
  \/ exists requestBody foodDescription apiKey,
       request_json w = Ok requestBody
       /\ Js.get requestBody "foodDescription" = Ok foodDescription
       /\ Js.truthy foodDescription = true
       /\ OPENAI_API_KEY w = Some apiKey
       /\ apiKey <> ""
       /\ (POST w).2 = [{| authorization := "Bearer " +:+ apiKey;
                           described := foodDescription |}].
Proof.
  unfold POST, try_block.
  destruct (request_json w) as [requestBody|e] eqn:Hreq; [|by left].
  destruct (Js.get requestBody "foodDescription") as [foodDescription|e] eqn:Hget;
    [|by left].
  destruct (Js.truthy foodDescription) eqn:Hfd; [|by left]. cbn [negb].
  destruct (OPENAI_API_KEY w) as [apiKey|] eqn:Hkey; [|by left].
  destruct apiKey as [|c apiKey]; [by left|].
  right. exists requestBody, foodDescription, (String c apiKey).
  split_and!; try done.
  cbv zeta. by case_match.
Qed.

(** X5: a request whose body cannot be read as JSON is answered 500 with
    the message of the exception, and one whose body is the JSON [null] is
    answered 500 with the message of the engine's [TypeError]; in neither
    case is a call made. *)
Theorem unreadable_request_is_500 (w : World) :
  (forall e, request_json w = Throw e -> POST w = (catch e, []))
  /\ (request_json w = Ok VNull ->
      Spec.internal_error (POST w).1 /\ (POST w).2 = []).
Proof.
  unfold POST, try_block. split.
  - by intros e ->.
  - intros ->. split; [|done]. split; [done|]. by eexists.
Qed.

End Response.

(** ** What the widget shows *)

Section Views.
Context {H : Host}.
Import Macros.

#[local] Abbreviation value := (value num).

(** No card, no list of cards. *)
Lemma cards_nil (g : num -> bool) (l : list value) :
  MealCard.cards g l = Ok [] -> l = [].
Proof.
  destruct l as [|x l]; [done|]. cbn [MealCard.cards].
  intros (card & _ & (others & _ & [=])%bind_Ok)%bind_Ok.
Qed.

(** X7: once the effect has run, the widget shows meal cards exactly when
    there is no error, the reconciled [loggedMeals] is a non-empty array and
    the card of every meal renders; the cards are then those of the meals,
    in order, each with its breakdown closed.  When there is no error and
    the card of some meal throws, the render of the widget throws with it.
    The widget never shows an empty list of cards. *)
Theorem cards_iff (toolOutput : value) :
  (forall cards,
     settled toolOutput = MealCards cards
     <-> Js.truthy (error toolOutput) = false
         /\ exists l, meals toolOutput = VArr l
                      /\ l <> []
                      /\ MealCard.cards num_gt_one l = Ok cards)
  /\ (forall l e,
        Js.truthy (error toolOutput) = false ->
        meals toolOutput = VArr l ->
        MealCard.cards num_gt_one l = Throw e ->
        settled toolOutput = RenderError e)
  /\ settled toolOutput <> MealCards [].
Proof.
  assert (forall cards,
            settled toolOutput = MealCards cards
            <-> Js.truthy (error toolOutput) = false
                /\ exists l, meals toolOutput = VArr l
                             /\ l <> []
                             /\ MealCard.cards num_gt_one l = Ok cards) as Hiff.
  { intros cards. unfold settled, render, effect.
    destruct (Js.truthy (error toolOutput)).
    { split; [by destruct (React.child _)|by intros (? & _)]. }
    destruct (meals toolOutput) as [| | | | |l|] eqn:Hm.
    6: {
      destruct l as [|x l].
      - cbn. split.
        + by destruct toolOutput; repeat case_match.
        + by intros (_ & l & [= <-] & ? & _).
      - cbn [Js.length_gt_0 Js.length_is_0 length].
        rewrite bool_decide_eq_true_2 by (cbn; lia).
        rewrite bool_decide_eq_false_2 by done.
        split.
        + destruct (MealCard.cards num_gt_one (x :: l)) as [shown|e] eqn:Hcards; [|done].
          intros [= <-]. split; [done|]. by exists (x :: l).
        + intros (_ & l' & [= <-] & _ & ->). done. }
    all: split; [|by intros (_ & ? & ? & _)].
    all: repeat case_match; done. }
  split_and!.
  - done.
  - intros l e Herr Hm Hcards. unfold settled, render, effect.
    rewrite Herr, Hm.
    destruct l as [|x l]; [done|].
    cbn [Js.length_gt_0 Js.length_is_0 length].
    rewrite bool_decide_eq_true_2 by (cbn; lia).
    rewrite bool_decide_eq_false_2 by done.
    by rewrite Hcards.
  - intros (_ & l & _ & Hne & Hnil%cards_nil)%Hiff. done.
Qed.

(** The handler's 200 body, as payload and wrapped. *)
Lemma mealData_of_body (l : list value) (daily : value) :
  let b : value := VObj (<["dailyTotals" := daily]> (<["loggedMeals" := VArr l]> ∅)) in
  mealData b = b
  /\ mealData (VObj (<["structuredContent" := b]> ∅)) = b
  /\ mealData (VObj (<["result" := VObj (<["structuredContent" := b]> ∅)]> ∅)) = b.
Proof. done. Qed.

(** X8: handed an object with the two keys [dailyTotals] and [loggedMeals],
    the latter an array, which are the keys of the object the analyze-food
    handler answers 200 with, as it is or wrapped as [{ structuredContent }]
    or [{ result: { structuredContent } }], the widget shows neither an
    error nor the loading view: it shows "No meal data available" when the
    array is empty, the cards of the meals when every card renders, and
    nothing when one of them throws. *)
Theorem response_in_widget (daily : value) (l : list value) (payload : value) :
  let b := VObj (<["dailyTotals" := daily]> (<["loggedMeals" := VArr l]> ∅)) in
  payload = b
  \/ payload = VObj (<["structuredContent" := b]> ∅)
  \/ payload = VObj (<["result" := VObj (<["structuredContent" := b]> ∅)]> ∅) ->
  settled payload
  = match l with
    | [] => NoMealData
    | _ => match MealCard.cards num_gt_one l with
           | Ok cards => MealCards cards
           | Throw e => RenderError e
           end
    end.
Proof.
  intros b [-> | [-> | ->]]; subst b; by destruct l.
Qed.

(** X9: on the structured content the tool itself returns for a
    description, the widget stays on the loading view, with the zero totals
    and the empty list of the current route as with the two [null]s of the
    earlier one; wrapped as [{ structuredContent }] the same content gives
    "No meal data available", because the description is looked for on the
    payload itself. *)
Theorem tool_output_keeps_loading (foodDescription : string) :
  settled (Tool.structuredContent foodDescription : value) = LoadingView
  /\ settled (Tool.structuredContent_earlier foodDescription : value) = LoadingView
  /\ settled (VObj (<["structuredContent" :=
                        (Tool.structuredContent foodDescription : value)]> ∅))
     = NoMealData.
Proof. done. Qed.

End Views.

(** ** The base URL *)

Section BaseURL.
Import Config.

(** The three values of [baseURL]. *)
Lemma baseURL_cases (env : Env) :
  baseURL env = None
  \/ baseURL env = Some "http://localhost:3000"
  \/ exists c u, baseURL env = Some ("https://" +:+ String c u).
Proof.
  unfold baseURL.
  destruct (equals (NODE_ENV env) "development"); [by right; left|].
  destruct (if equals (VERCEL_ENV env) "production" then _ else _) as [[|c u]|];
    [by left| |by left].
  right. right. by exists c, u.
Qed.

(** X10: the configuration sets [assetPrefix] exactly when [baseURL] is
    defined, and to [baseURL] itself: a defined [baseURL] always starts
    with "http", and is never the bare scheme "https://". *)
Theorem assetPrefix_is_baseURL (env : Env) :
  assetPrefix (baseURL env) = baseURL env
  /\ forall u, baseURL env = Some u ->
       String.prefix "http" u = true /\ u <> "https://".
Proof.
  unfold baseURL.
  destruct (equals (NODE_ENV env) "development"); [by split; [|intros u [= <-]]|].
  destruct (if equals (VERCEL_ENV env) "production" then _ else _) as [[|c u']|];
    [done| |done].
  split; [done|]. by intros u [= <-].
Qed.

(** X11: the MCP route fetches the widget's markup from a URL that starts
    with "http" exactly when [baseURL] is defined; with no deployment URL
    outside development it fetches the relative "undefined/nmacros". *)
Theorem widget_html_url_absolute (env : Env) :
  (String.prefix "http" (widget_html_url (baseURL env)) = true
   <-> baseURL env <> None)
  /\ (baseURL env = None -> widget_html_url (baseURL env) = "undefined/nmacros").
Proof.
  destruct (baseURL_cases env) as [->|[->|(c & u & ->)]]; by split; [split|].
Qed.

End BaseURL.

(** ** The meal card *)

Section Cards.
Context {H : Host} (num_gt_1 : num -> bool).
Import AnalyzeFood MealCard.

#[local] Abbreviation value := (value num).

(** What the card computes, step by step. *)
Lemma MealCard_inv (showBreakdown isLast : bool) (meal : value) (card : Card) :
  MealCard num_gt_1 showBreakdown isLast meal = Ok card ->
  exists hasMultipleIngredients totals breakdown,
    length_gt_1 num_gt_1 (Js.prop meal "ingredients") = Ok hasMultipleIngredients
    /\ rounded (Js.prop meal "total_nutrients") = Ok totals
    /\ (if showBreakdown && hasMultipleIngredients then
          match Js.prop meal "ingredients" with
          | VArr l => rows ← js_map row l; Ok (Some rows)
          | _ => Throw (TypeError "meal.ingredients.map is not a function")
          end
        else Ok None) = Ok breakdown
    /\ card = {| c_last := isLast; c_name := Js.prop meal "meal_name";
                 c_size := and_shown (Js.prop meal "meal_size");
                 c_toggle := hasMultipleIngredients; c_totals := totals;
                 c_breakdown := breakdown |}.
Proof.
  unfold MealCard. intros Hc.
  apply bind_Ok in Hc as (card' & Hc & Hchildren).
  destruct (forallb React.valid_child (children card')); [|done].
  injection Hchildren as ->. unfold element in Hc.
  apply bind_Ok in Hc as (ingredients & Hi & Hc).
  assert (forall k x, Js.get meal k = Ok x -> x = Js.prop meal k) as Hget
    by (by destruct meal; intros k x [= <-]).
  apply Hget in Hi as ->.
  apply bind_Ok in Hc as (hasMultipleIngredients & Hm & Hc).
  apply bind_Ok in Hc as (meal_name & ->%Hget & Hc).
  apply bind_Ok in Hc as (meal_size & ->%Hget & Hc).
  apply bind_Ok in Hc as (total_nutrients & ->%Hget & Hc).
  apply bind_Ok in Hc as (totals & Ht & Hc).
  apply bind_Ok in Hc as (breakdown & Hb & [= <-]).
  by exists hasMultipleIngredients, totals, breakdown.
Qed.

(** X12: whenever the card renders, the breakdown is shown only if it was
    toggled on and the toggle button is there; on an [ingredients] array
    the button is there exactly from two ingredients on; and a breakdown
    that is shown has one row per ingredient, in order. *)
Theorem breakdown_needs_two (showBreakdown isLast : bool) (meal : value) (card : Card) :
  MealCard num_gt_1 showBreakdown isLast meal = Ok card ->
  (c_breakdown card <> None -> showBreakdown = true /\ c_toggle card = true)
  /\ (forall l, Js.prop meal "ingredients" = VArr l ->
        c_toggle card = bool_decide (1 < length l))
  /\ (forall rows, c_breakdown card = Some rows ->
        exists l, Js.prop meal "ingredients" = VArr l
                  /\ Forall2 (fun ingredient r => row ingredient = Ok r) l rows).
Proof.
  intros (multiple & totals & breakdown & Hm & _ & Hb & ->)%MealCard_inv.
  cbn [c_breakdown c_toggle]. split_and!.
  - intros Hsome. destruct showBreakdown, multiple; try done; by simplify_eq/=.
  - intros l Hl. rewrite Hl in Hm. by injection Hm as <-.
  - intros rows ->. destruct (showBreakdown && multiple); [|done].
    destruct (Js.prop meal "ingredients") as [| | | | |l|]; try done.
    apply bind_Ok in Hb as (rows' & Hrows & [= <-]).
    exists l. split; [done|]. by apply js_map_Forall2.
Qed.

(** X13: a meal object without [ingredients], which the correction returns
    as it is, makes the card throw, open or closed; and so does a meal
    object without [total_nutrients]. *)
Theorem card_needs_ingredients_and_total
    (o : gmap string value) (showBreakdown isLast : bool) :
  (o !! "ingredients" = None ->
   correct_meal (VObj o) = Ok (VObj o)
   /\ exists e, MealCard num_gt_1 showBreakdown isLast (VObj o) = Throw e)
  /\ (o !! "total_nutrients" = None ->
      exists e, MealCard num_gt_1 showBreakdown isLast (VObj o) = Throw e).
Proof.
  split.
  - intros Ho. unfold correct_meal, MealCard, element, Js.get, Js.prop. rewrite Ho.
    split; [done|]. by eexists.
  - intros Ho.
    destruct (MealCard num_gt_1 showBreakdown isLast (VObj o)) as [card|e] eqn:Hc;
      [|by eexists].
    apply MealCard_inv in Hc as (_ & totals & _ & _ & Ht & _).
    unfold Js.prop in Ht. by rewrite Ho in Ht.
Qed.

Lemma rounded_to_object (t : Totals) :
  rounded (to_object t)
  = Ok {| t_calories := Js.Math_round (t_calories t);
          t_protein := Js.Math_round (t_protein t);
          t_carbs := Js.Math_round (t_carbs t);
          t_fat := Js.Math_round (t_fat t) |}.
Proof. done. Qed.


End Cards.

(** ** The web page *)

Section Page.
Context {H : Host}.
Import WebPage.

#[local] Abbreviation value := (value num).

(** X15: [handleSubmit] does nothing, and sends nothing, when the trimmed
    input is empty or a request is in flight; otherwise it sends exactly
    one request, carrying the trimmed input, and leaves the input empty,
    the loading flag off, and the conversation longer by exactly the
    user's message and one reply of the assistant, whether the request
    succeeded or not. *)
Theorem handleSubmit_outcome (p : Page) (s : State) :
  (trim p (input s) = "" \/ isLoading s = true -> handleSubmit p s = (s, []))
  /\ (trim p (input s) <> "" -> isLoading s = false ->
      exists reply,
        handleSubmit p s
        = ({| messages := messages s
                          ++ [{| id := user_id p; role_of := user;
                                 content := trim p (input s); mealData := None |};
                              reply];
              input := "";
              isLoading := false |},
           [VObj (<["foodDescription" := VStr (trim p (input s))]> ∅)])
        /\ id reply = reply_id p
        /\ role_of reply = assistant).
Proof.
  unfold handleSubmit. split.
  - intros [-> | ->]; [done|]. by rewrite orb_true_r.
  - intros Hne ->. apply String.eqb_neq in Hne. rewrite Hne. cbn [orb].
    eexists. split.
    + unfold submitting. cbn [messages input]. by rewrite <- app_assoc.
    + destruct (attempt p (trim p (input s))) as [m|e] eqn:Ha; [|done].
      unfold attempt in Ha.
      apply bind_Ok in Ha as (response & _ & Ha).
      apply bind_Ok in Ha as (data & _ & Ha).
      destruct (negb (ok response)).
      * by apply bind_Ok in Ha as (error & _ & ?).
      * by injection Ha as <-.
Qed.

(** X16: when the API answers with a failure status and a JSON body, the
    reply is shown as an error box: with the body's [error] when that is a
    non-empty string, and with "Failed to analyze food" when the body (an
    object) has no [error]. *)
Theorem failed_request_shows_error
    (p : Page) (description : string) (response : ApiResponse)
    (data : gmap string value) :
  api p (VObj (<["foodDescription" := VStr description]> ∅)) = Ok response ->
  ok response = false ->
  json response = Ok (VObj data) ->
  (forall message, data !! "error" = Some (VStr message) -> message <> "" ->
     attempt p description = Throw (JsError message)
     /\ show (errorMessage p (JsError message)) = ErrorBox (VStr message))
  /\ (data !! "error" = None ->
      attempt p description = Throw (JsError "Failed to analyze food")
      /\ show (errorMessage p (JsError "Failed to analyze food"))
         = ErrorBox (VStr "Failed to analyze food")).
Proof.
  intros Hapi Hok Hjson. unfold attempt. rewrite Hapi. cbn [mbind result_bind].
  rewrite Hjson, Hok. cbn [mbind result_bind negb Js.get Js.prop]. split.
  - intros message -> Hne. apply String.eqb_neq in Hne.
    unfold Js.or, show. cbn. rewrite Hne, lookup_insert_eq. cbn. by rewrite Hne.
  - intros ->. unfold show. cbn. by rewrite lookup_insert_eq.
Qed.

(** Without a key a request with a description is refused before any
    call. *)
Lemma POST_key_unset (w : AnalyzeFood.World) (requestBody foodDescription : value) :
  AnalyzeFood.request_json w = Ok requestBody ->
  Js.get requestBody "foodDescription" = Ok foodDescription ->
  Js.truthy foodDescription = true ->
  Spec.key_unset w = true ->
  AnalyzeFood.POST w
  = ({| AnalyzeFood.status := 500;
        AnalyzeFood.body := AnalyzeFood.error_body (VStr "OpenAI API key not configured") |},
     []).
Proof.
  intros Hreq Hget Hfd Hkey.
  unfold Spec.key_unset in Hkey. unfold AnalyzeFood.POST, AnalyzeFood.try_block.
  rewrite Hreq, Hget, Hfd. cbn [negb].
  by destruct (AnalyzeFood.OPENAI_API_KEY w) as [[|c k]|].
Qed.

Lemma served_key_unset (w : AnalyzeFood.World) (wire : value -> value) (description : string) :
  description <> "" ->
  Spec.key_unset w = true ->
  served w wire (VObj (<["foodDescription" := VStr description]> ∅))
  = Ok {| ok := false;
          json := Ok (wire (AnalyzeFood.error_body (VStr "OpenAI API key not configured"))) |}.
Proof.
  intros Hne Hkey. unfold served.
  rewrite (POST_key_unset _ (VObj (<["foodDescription" := VStr description]> ∅))
             (VStr description)); try done.
  cbn [Js.truthy]. apply String.eqb_neq in Hne. by rewrite Hne.
Qed.

(** X17: with the page's requests answered by the analyze-food handler and
    the API key unset, every submitted description ends in a reply shown
    as the error box "OpenAI API key not configured". *)
Theorem page_without_key
    (p : Page) (w : AnalyzeFood.World) (wire : value -> value) (s : State) :
  api p = served w wire ->
  (forall message,
     wire (AnalyzeFood.error_body (VStr message)) = AnalyzeFood.error_body (VStr message)) ->
  trim p (input s) <> "" ->
  isLoading s = false ->
  Spec.key_unset w = true ->
  exists sent reply,
    messages (handleSubmit p s).1 = messages s ++ [sent; reply]
    /\ show sent = UserText (trim p (input s))
    /\ show reply = ErrorBox (VStr "OpenAI API key not configured").
Proof.
  intros Hapi Hwire Hne Hl Hkey. unfold handleSubmit.
  pose proof Hne as Hne'. apply String.eqb_neq in Hne'. rewrite Hne', Hl. cbn [orb fst].
  unfold submitting. cbn [messages]. rewrite <- app_assoc.
  eexists _, _. split; [done|]. split; [done|].
  unfold attempt. rewrite Hapi, (served_key_unset _ _ _ Hne Hkey), Hwire.
  unfold show. cbn. by rewrite !lookup_insert_eq.
Qed.

End Page.

(** ** The further properties at the sample inputs *)

Section FurtherInstances.
Import IEEE AnalyzeFood.

#[local] Abbreviation value := (value float).

(** The sample response has the two keys, and its totals the four. *)
Lemma response_shape_at_sample :
  exists (o daily : gmap string value) (meals : list value),
    body (POST Sample.world).1 = VObj o
    /\ dom o = ({["dailyTotals"; "loggedMeals"]} : gset string)
    /\ o !! "loggedMeals" = Some (VArr meals)
    /\ o !! "dailyTotals" = Some (VObj daily)
    /\ dom daily = ({["calories"; "protein"; "carbs"; "fat"]} : gset string)
    /\ (forall meal x l,
          meal ∈ meals ->
          Js.prop meal "ingredients" = VArr (x :: l) ->
          exists total : gmap string value,
            Js.prop meal "total_nutrients" = VObj total
            /\ dom total = ({["calories"; "protein"; "carbs"; "fat"]} : gset string)).
Proof. apply (response_shape Sample.world). vm_compute. reflexivity. Defined.

(** Two reported totals of the sample meal, and two reported daily totals. *)
Lemma reported_totals_at_sample :
  correct_meal (VObj (<["total_nutrients" := Sample.nutrients 1000 30 100 40]>
                        Demo.big_mac_rest))
  = correct_meal (VObj (<["total_nutrients" := VNull]> Demo.big_mac_rest))
  /\ after_fetch Sample.world Sample.completion_response
     = after_fetch Demo.world' Sample.completion_response.
Proof.
  destruct (reported_totals_are_ignored (H := IEEE.host)) as (Hmeal & Hdaily).
  split.
  - apply (Hmeal Demo.big_mac_rest
             (Sample.ingredient "Big Mac" (Sample.nutrients 540.5 25.25 40 25))
             [Sample.ingredient "Fries" (Sample.nutrients 365.25 4 48 17); Sample.coke]).
    vm_compute. reflexivity.
  - apply (Hdaily Sample.world Demo.world' Sample.completion_response
             Sample.completion_response Sample.data Demo.data');
      vm_compute; reflexivity.
Defined.

(** A body that is not JSON, and the body [null]. *)
Lemma unreadable_request_at_sample :
  POST Demo.world_bad_request = (catch (JsError "Unexpected end of JSON input"), [])
  /\ (Spec.internal_error (POST Demo.world_null_request).1
      /\ (POST Demo.world_null_request).2 = []).
Proof.
  split.
  - apply (proj1 (unreadable_request_is_500 Demo.world_bad_request)). reflexivity.
  - apply (proj2 (unreadable_request_is_500 Demo.world_null_request)). reflexivity.
Defined.

(** The response with two meals in the widget, wrapped as structured
    content: two cards; and the sample response, whose third meal has no
    [ingredients]: no card at all. *)
Lemma response_in_widget_at_sample :
  (exists cards,
     Macros.settled Demo.two_meals_payload = Macros.MealCards cards
     /\ length cards = 2)
  /\ Macros.settled Sample.structured_payload
     = Macros.RenderError
         (TypeError "Cannot read properties of undefined (reading 'length')").
Proof.
  split.
  - eexists. split.
    + rewrite (response_in_widget (H := IEEE.host)
                 (Js.prop (body (POST Demo.world_two_meals).1) "dailyTotals")
                 [Demo.corrected_big_mac; Sample.blueberries]
                 Demo.two_meals_payload).
      * vm_compute. reflexivity.
      * right. left. vm_compute. reflexivity.
    + reflexivity.
  - rewrite (response_in_widget (H := IEEE.host)
               (Sample.nutrients 0 0 0 0)
               [Sample.big_mac_meal; Sample.blueberries; Sample.water]
               Sample.structured_payload).
    + vm_compute. reflexivity.
    + right. left. vm_compute. reflexivity.
Defined.

(** A preview deployment and an environment without deployment URL. *)
Lemma baseURL_at_sample :
  Config.assetPrefix (Config.baseURL Demo.preview)
  = Some "https://macros-git-main.example.com"
  /\ String.prefix "http" "https://macros-git-main.example.com" = true
  /\ Config.assetPrefix (Config.baseURL Demo.bare) = None.
Proof.
  destruct (assetPrefix_is_baseURL Demo.preview) as (Hp & Hu).
  destruct (assetPrefix_is_baseURL Demo.bare) as (Hb & _).
  split_and!.
  - rewrite Hp. reflexivity.
  - apply (Hu "https://macros-git-main.example.com"). reflexivity.
  - rewrite Hb. reflexivity.
Defined.

Lemma widget_html_url_at_sample :
  Config.widget_html_url (Config.baseURL Demo.bare) = "undefined/nmacros"
  /\ String.prefix "http" (Config.widget_html_url (Config.baseURL Demo.preview)) = true.
Proof.
  split.
  - apply (proj2 (widget_html_url_absolute Demo.bare)). reflexivity.
  - apply (proj1 (widget_html_url_absolute Demo.preview)). discriminate.
Defined.

(** The corrected sample meal as an open card. *)
Lemma breakdown_at_sample :
  exists card,
    MealCard.MealCard Demo.gt_1 true false Demo.corrected_big_mac = Ok card
    /\ (MealCard.c_breakdown card <> None -> MealCard.c_toggle card = true)
    /\ MealCard.c_toggle card = true
    /\ exists rows, MealCard.c_breakdown card = Some rows /\ length rows = 3.
Proof.
  destruct (MealCard.MealCard (H := IEEE.host) Demo.gt_1 true false
              Demo.corrected_big_mac)
    as [card|e] eqn:Hcard; [|vm_compute in Hcard; discriminate Hcard].
  exists card. split; [reflexivity|].
  destruct (breakdown_needs_two (H := IEEE.host) Demo.gt_1 true false Demo.corrected_big_mac card Hcard)
    as (Hshown & Htoggle & Hrows).
  split_and!.
  - intros Hb. apply (Hshown Hb).
  - apply (Htoggle [Sample.ingredient "Big Mac" (Sample.nutrients 540.5 25.25 40 25);
                    Sample.ingredient "Fries" (Sample.nutrients 365.25 4 48 17);
                    Sample.coke]).
    vm_compute. reflexivity.
  - vm_compute in Hcard. injection Hcard as <-. eexists. split; reflexivity.
Defined.

(** The meal without ingredients and without a total. *)
Lemma card_at_water :
  correct_meal Sample.water = Ok Sample.water
  /\ (exists e, MealCard.MealCard Demo.gt_1 false true Sample.water = Throw e).
Proof.
  apply (proj1 (card_needs_ingredients_and_total (H := IEEE.host) Demo.gt_1
                  (list_to_map [("meal_name", VStr "Water")]) false true)).
  vm_compute. reflexivity.
Defined.


(** A blank input, and a submitted one. *)
Lemma handleSubmit_at_sample :
  WebPage.handleSubmit Demo.refusing_page (Demo.typing "   ")
  = (Demo.typing "   ", [])
  /\ exists reply,
       WebPage.handleSubmit Demo.refusing_page (Demo.typing " Big Mac meal ")
       = ({| WebPage.messages :=
               [] ++ [{| WebPage.id := "1700000000000"; WebPage.role_of := WebPage.user;
                         WebPage.content := "Big Mac meal"; WebPage.mealData := None |};
                      reply];
             WebPage.input := "";
             WebPage.isLoading := false |},
          [VObj (<["foodDescription" := VStr "Big Mac meal"]> ∅)])
       /\ WebPage.id reply = "1700000000901"
       /\ WebPage.role_of reply = WebPage.assistant.
Proof.
  split.
  - apply (proj1 (handleSubmit_outcome Demo.refusing_page (Demo.typing "   "))).
    left. reflexivity.
  - apply (proj2 (handleSubmit_outcome Demo.refusing_page (Demo.typing " Big Mac meal "))).
    + discriminate.
    + reflexivity.
Defined.

(** The refused request. *)
Lemma failed_request_at_sample :
  WebPage.attempt Demo.refusing_page "Big Mac meal"
  = Throw (JsError "Food description is required")
  /\ WebPage.show (WebPage.errorMessage Demo.refusing_page
                     (JsError "Food description is required"))
     = WebPage.ErrorBox (VStr "Food description is required").
Proof.
  apply (proj1 (failed_request_shows_error Demo.refusing_page "Big Mac meal"
                  Demo.refusal
                  (list_to_map [("error", VStr "Food description is required")])
                  eq_refl eq_refl eq_refl)).
  - reflexivity.
  - discriminate.
Defined.

(** The page in front of the handler without a key. *)
Lemma page_without_key_at_sample :
  exists sent reply,
    WebPage.messages (WebPage.handleSubmit Demo.keyless_page (Demo.typing "Big Mac meal")).1
    = WebPage.messages (Demo.typing "Big Mac meal") ++ [sent; reply]
    /\ WebPage.show sent
       = WebPage.UserText (WebPage.trim Demo.keyless_page
                             (WebPage.input (Demo.typing "Big Mac meal")))
    /\ WebPage.show reply = WebPage.ErrorBox (VStr "OpenAI API key not configured").
Proof.
  apply (page_without_key Demo.keyless_page Sample.world_no_key (fun body => body)).
  - reflexivity.
  - intros message. reflexivity.
  - discriminate.
  - reflexivity.
  - reflexivity.
Defined.

End FurtherInstances.
